(** * Scheduling tools of the calendar assistant (src/app.py)

    A shallow embedding of the three calendar tools of [src/app.py]
    ([list_events_tool], [find_available_slots_tool], [create_event_tool])
    together with the part of the Python runtime they rely on, and the
    properties of the natural-language specification that concern them.

    Conventions.
    - An aware UTC [datetime] is its number of microseconds since
      0001-01-01T00:00:00+00:00 (a [Z]); Python's own range
      [datetime.min .. datetime.max] is [DT_MIN .. DT_MAX].
    - A Python exception is a value of [Exn]; code that may raise returns
      [Res A]; code that also talks to the calendar backend runs in [Tool],
      which threads the log of the requests sent so far.
    - Library functions whose text is not part of the repository
      ([urllib.parse.parse_qs], [datetime.fromisoformat], [datetime.isoformat])
      are the methods of the class [PyLib]; every general theorem holds for
      all of its instances, and [Ref] gives one to run the tools on concrete
      inputs.
    - The conversation graph, the chat turn and [display_events] follow
      the tools: there the language model, the node that runs the tools
      and the string methods are parameters as well. *)

From stdpp Require Import gmap strings list.
From Stdlib Require Import ZArith Lia Ascii Sorted.

Open Scope Z_scope.

(** ** Exceptions and the two monads *)

Inductive Exn : Type :=
  | KeyError (key : string)
  | IndexError (msg : string)
  | ValueError (msg : string)
  | OverflowError (msg : string)
  | HttpError (msg : string).

(** [str(e)]: a [KeyError] prints the [repr] of the missing key. *)
Definition exn_str (e : Exn) : string :=
  match e with
  | KeyError key => "'" +:+ key +:+ "'"
  | IndexError msg | ValueError msg | OverflowError msg | HttpError msg => msg
  end.

Inductive Res (A : Type) : Type :=
  | Ok (a : A)
  | Raise (e : Exn).
Arguments Ok {A} a.
Arguments Raise {A} e.

#[global] Instance Res_ret : MRet Res := fun A a => Ok a.
#[global] Instance Res_bind : MBind Res := fun A B f r =>
  match r with
  | Ok a => f a
  | Raise e => Raise e
  end.

(** ** The calendar backend

    Only the fields the tools read are kept.  A Google Calendar time object
    carries a ['dateTime'] (timed event) or a ['date'] (all-day event). *)

Record TimeObj : Type := mkTimeObj {
  dateTime : option string;
  date : option string
}.

Record RawEvent : Type := mkRawEvent {
  ev_start : option TimeObj;
  ev_end : option TimeObj;
  ev_summary : option string
}.

(** Arguments of [events().list(...)]; [calendarId] is a constant secret. *)
Record ListRequest : Type := mkListRequest {
  timeMin : string;
  timeMax : option string;
  maxResults : nat;
  singleEvents : bool;
  orderBy : string
}.

(** Body of [events().insert(...)]: both times are sent with
    ['timeZone': 'UTC']. *)
Record InsertRequest : Type := mkInsertRequest {
  body_summary : string;
  body_start : string;
  body_end : string
}.

Record Created : Type := mkCreated {
  htmlLink : option string;
  created_id : option string
}.

Inductive Request : Type :=
  | ReqList (r : ListRequest)
  | ReqInsert (r : InsertRequest).

(** The store answers a list request with an exception or with a response
    whose ['items'] key may be absent, and an insert with an exception or the
    created event. *)
Record CalendarStore : Type := mkStore {
  events_list : ListRequest -> Res (option (list RawEvent));
  events_insert : InsertRequest -> Res Created
}.

(** A tool computation: it receives the log of requests sent so far and
    returns its outcome with the extended log. *)
Definition Tool (A : Type) : Type := list Request -> Res A * list Request.

#[global] Instance Tool_ret : MRet Tool := fun A a log => (Ok a, log).
#[global] Instance Tool_bind : MBind Tool := fun A B f m log =>
  match m log with
  | (Ok a, log') => f a log'
  | (Raise e, log') => (Raise e, log')
  end.

Definition lift {A : Type} (r : Res A) : Tool A := fun log => (r, log).

(** [try: body except Exception as e: handler(e)] *)
Definition try_except {A : Type} (body : Tool A) (handler : Exn -> Tool A) : Tool A :=
  fun log =>
    match body log with
    | (Ok a, log') => (Ok a, log')
    | (Raise e, log') => handler e log'
    end.

Definition call_list (store : CalendarStore) (r : ListRequest)
  : Tool (option (list RawEvent)) :=
  fun log => (events_list store r, log ++ [ReqList r]).

Definition call_insert (store : CalendarStore) (r : InsertRequest) : Tool Created :=
  fun log => (events_insert store r, log ++ [ReqInsert r]).

(** Running a tool from an empty log. *)
Definition run {A : Type} (m : Tool A) : Res A * list Request := m [].

(** ** Dates and durations *)

Definition US_PER_SEC : Z := 1000000.
Definition US_PER_MIN : Z := 60 * US_PER_SEC.
Definition US_PER_DAY : Z := 86400 * US_PER_SEC.

(** [datetime.min] and [datetime.max] (9999-12-31T23:59:59.999999, ordinal
    3652059). *)
Definition DT_MIN : Z := 0.
Definition DT_MAX : Z := 3652059 * US_PER_DAY - 1.

Definition in_dt_range (t : Z) : bool := (DT_MIN <=? t) && (t <=? DT_MAX).

(** [timedelta(minutes=m)], [timedelta(days=d)]: the constructor refuses a
    duration of more than 999999999 days in magnitude. *)
Definition TD_MAX_DAYS : Z := 999999999.

Definition timedelta_us (us : Z) : Res Z :=
  if (- TD_MAX_DAYS <=? us / US_PER_DAY) && (us / US_PER_DAY <=? TD_MAX_DAYS)
  then Ok us
  else Raise (OverflowError "days out of range; must have magnitude <= 999999999").

Definition timedelta_minutes (m : Z) : Res Z := timedelta_us (m * US_PER_MIN).
Definition timedelta_days (d : Z) : Res Z := timedelta_us (d * US_PER_DAY).

(** [dt + td] *)
Definition dt_add (dt td : Z) : Res Z :=
  if in_dt_range (dt + td) then Ok (dt + td)
  else Raise (OverflowError "date value out of range").

(** [int((b - a).total_seconds() / 60)]: truncation toward zero of the
    quotient.  Python computes it in double precision; the integer quotient
    is the same number whenever the gap is shorter than a century. *)
Definition duration_minutes_of (a b : Z) : Z := Z.quot (b - a) US_PER_MIN.

(** [now.replace(hour=23, minute=59, second=59)]: same date, same
    microsecond. *)
Definition end_of_day (now : Z) : Z :=
  now - now mod US_PER_DAY + 86399 * US_PER_SEC + now mod US_PER_SEC.

(** ** Library functions taken as parameters *)

Class PyLib : Type := mkPyLib {
  (** [urllib.parse.parse_qs]: the dict as an association list with
      distinct keys *)
  parse_qs : string -> Res (list (string * list string));
  (** [datetime.fromisoformat(s).astimezone(UTC)] *)
  fromisoformat_utc : string -> Res Z;
  (** [dt.isoformat()] of an aware UTC datetime *)
  isoformat : Z -> string
}.

(** Every datetime Python builds lies between [datetime.min] and
    [datetime.max]; theorems that need it of the parser assume it. *)
Definition parses_in_range (lib : PyLib) : Prop :=
  forall s t, fromisoformat_utc s = Ok t -> DT_MIN <= t <= DT_MAX.

(** ** Values returned by the tools *)

(** One entry of the list returned by [list_events_tool]. *)
Record OutEvent : Type := mkOutEvent {
  out_start : option string;
  out_summary : string;
  out_end : option string
}.

(** [list_events_tool] returns a list of entries or a message string. *)
Inductive ListEventsResult : Type :=
  | Events (unique_events : list OutEvent)
  | Text (message : string).

(** One entry of the list returned by [find_available_slots_tool]. *)
Record Slot : Type := mkSlot {
  slot_start : string;
  slot_end : string;
  duration_minutes : Z
}.

(** [create_event_tool] returns [{"error": ...}] or
    [{"status": "success", "link": ..., "event_id": ...}]. *)
Inductive CreateResult : Type :=
  | CreateError (error : string)
  | CreateSuccess (link event_id : option string).

(** ** Dictionary access *)

(** [d[key]] *)
Definition item {A : Type} (key : string) (d : option A) : Res A :=
  match d with
  | Some a => Ok a
  | None => Raise (KeyError key)
  end.

(** [t.get('dateTime', t.get('date'))] *)
Definition time_field (t : TimeObj) : option string :=
  match dateTime t with
  | Some s => Some s
  | None => date t
  end.

(** [params.get(key, default)] on the dict [{k: v[0] for ...}] *)
Definition params_get (key : string) (params : list (string * string))
    (default : string) : string :=
  match List.find (fun kv => String.eqb (fst kv) key) params with
  | Some kv => snd kv
  | None => default
  end.

(** [{k: v[0] for k, v in d.items()}] *)
Fixpoint first_values (d : list (string * list string)) : Res (list (string * string)) :=
  match d with
  | [] => Ok []
  | (k, v) :: rest =>
      match v with
      | [] => Raise (IndexError "list index out of range")
      | v0 :: _ => tl ← first_values rest; mret ((k, v0) :: tl)
      end
  end.

(** ['=' in query] *)
Definition has_equals (query : string) : bool :=
  existsb (Ascii.eqb "="%char) (String.list_ascii_of_string query).

Definition INVALID_QUERY : string :=
  "Invalid query format. Use: start_time=ISO_TIME&end_time=ISO_TIME".

Section Tools.
Context {lib : PyLib}.
Variable store : CalendarStore.
(** the instant read by the tool's call of [datetime.now(UTC)] *)
Variable now : Z.

(** *** list_events_tool (lines 92-148) *)

(** Lines 105-109: the bounds after the optional query has been read. *)
Definition query_bounds (query : option string) (time_min time_max : string)
  : Res (string * string) :=
  match query with
  | Some q =>
      if negb (String.eqb q "") && has_equals q then
        d ← parse_qs q;
        params ← first_values d;
        mret (params_get "start_time" params time_min,
              params_get "end_time" params time_max)
      else Ok (time_min, time_max)
  | None => Ok (time_min, time_max)
  end.

(** Lines 130-133. *)
Definition event_key (event : RawEvent) : Res (option string * string) :=
  start ← item "start" (ev_start event);
  summary ← item "summary" (ev_summary event);
  mret (time_field start, summary).

(** Lines 136-140. *)
Definition format_event (event : RawEvent) : Res OutEvent :=
  start ← item "start" (ev_start event);
  summary ← item "summary" (ev_summary event);
  end_ ← item "end" (ev_end event);
  mret {| out_start := time_field start;
          out_summary := summary;
          out_end := time_field end_ |}.

(** Lines 129-140: the loop, with its two accumulators. *)
Fixpoint dedup_loop (events : list RawEvent) (unique_events : list OutEvent)
    (seen : gset (option string * string)) : Res (list OutEvent) :=
  match events with
  | [] => Ok unique_events
  | event :: rest =>
      key ← event_key event;
      if bool_decide (key ∈ seen) then dedup_loop rest unique_events seen
      else
        entry ← format_event event;
        dedup_loop rest (unique_events ++ [entry]) (seen ∪ {[key]})
  end.

Definition list_request (time_min time_max : string) : ListRequest :=
  {| timeMin := time_min; timeMax := Some time_max; maxResults := 20;
     singleEvents := true; orderBy := "startTime" |}.

Definition no_events_message (time_min time_max : string) : string :=
  "No events found between " +:+ time_min +:+ " and " +:+ time_max.

(** Lines 114-148. *)
Definition fetch_events (time_min time_max : string) : Tool ListEventsResult :=
  try_except
    (events_result ← call_list store (list_request time_min time_max);
     let events := default [] events_result in
     unique_events ← lift (dedup_loop events [] ∅);
     match unique_events with
     | [] => mret (Text (no_events_message time_min time_max))
     | _ => mret (Events unique_events)
     end)
    (fun e => mret (Text ("Error fetching events: " +:+ exn_str e))).

Definition list_events_tool (query : option string) : Tool ListEventsResult :=
  week ← lift (timedelta_days 7);
  later ← lift (dt_add now week);
  let time_min := isoformat now in
  let time_max := isoformat later in
  match query_bounds query time_min time_max with
  | Raise _ => mret (Text INVALID_QUERY)
  | Ok (time_min, time_max) => fetch_events time_min time_max
  end.

(** *** find_available_slots_tool (lines 150-189) *)

Definition slots_request : ListRequest :=
  {| timeMin := isoformat now; timeMax := None; maxResults := 20;
     singleEvents := true; orderBy := "startTime" |}.

(** [datetime.fromisoformat(event[key]['dateTime']).astimezone(UTC)] *)
Definition event_instant (key : string) (t : option TimeObj) : Res Z :=
  t ← item key t;
  s ← item "dateTime" (dateTime t);
  fromisoformat_utc s.

Definition make_slot (a b : Z) : Slot :=
  {| slot_start := isoformat a;
     slot_end := isoformat b;
     duration_minutes := duration_minutes_of a b |}.

(** Lines 169-178: one iteration, on the pair
    [(available_slots, last_end)]. *)
Definition sweep_step (min_duration : Z) (event : RawEvent)
    (st : list Slot * Z) : Res (list Slot * Z) :=
  let '(available_slots, last_end) := st in
  start ← event_instant "start" (ev_start event);
  end_ ← event_instant "end" (ev_end event);
  td ← timedelta_minutes min_duration;
  bound ← dt_add last_end td;
  let available_slots :=
    if start >? bound then available_slots ++ [make_slot last_end start]
    else available_slots in
  mret (available_slots, Z.max last_end end_).

Fixpoint sweep (min_duration : Z) (events : list RawEvent)
    (st : list Slot * Z) : Res (list Slot * Z) :=
  match events with
  | [] => Ok st
  | event :: rest =>
      st' ← sweep_step min_duration event st;
      sweep min_duration rest st'
  end.

(** Lines 180-189. *)
Definition trailing (min_duration : Z) (st : list Slot * Z) : Res (list Slot) :=
  let '(available_slots, last_end) := st in
  td ← timedelta_minutes min_duration;
  bound ← dt_add last_end td;
  if end_of_day now >? bound
  then mret (available_slots ++ [make_slot last_end (end_of_day now)])
  else mret available_slots.

Definition find_available_slots_tool (min_duration : Z) : Tool (list Slot) :=
  response ← call_list store slots_request;
  let events := default [] response in
  st ← lift (sweep min_duration events ([], now));
  lift (trailing min_duration st).

(** *** create_event_tool (lines 191-228) *)

Definition END_BEFORE_START : string := "End time must be after start time".
Definition IN_THE_PAST : string := "Cannot create events in the past".

Definition create_event_tool (summary start_time end_time : string)
  : Tool CreateResult :=
  try_except
    (start ← lift (fromisoformat_utc start_time);
     end_ ← lift (fromisoformat_utc end_time);
     if start >=? end_ then mret (CreateError END_BEFORE_START)
     else if start <? now then mret (CreateError IN_THE_PAST)
     else
       let event := {| body_summary := summary;
                       body_start := isoformat start;
                       body_end := isoformat end_ |} in
       created_event ← call_insert store event;
       mret (CreateSuccess (htmlLink created_event) (created_id created_event)))
    (fun e => mret (CreateError (exn_str e))).

End Tools.

(** ** A reference instance of the library functions

    Enough of the three library functions to run the tools on concrete
    inputs: [parse_qs] as in CPython 3.10 and later (fields separated by
    ['&'], blank values dropped, ['+'] read as a space, [%XX] escapes
    decoded bytewise), the parser on the fixed-width form
    [YYYY-MM-DDTHH:MM:SS] followed by [Z] or [+HH:MM] or [-HH:MM], and
    [isoformat] in full for aware UTC datetimes.  A string outside that
    form is refused here with one [ValueError] message for all causes. *)
Module Ref.

(** [s.split(sep)] *)
Fixpoint split_char (sep : ascii) (s : string) : list string :=
  match s with
  | EmptyString => [EmptyString]
  | String c rest =>
      if Ascii.eqb c sep then EmptyString :: split_char sep rest
      else match split_char sep rest with
           | hd :: tl => String c hd :: tl
           | [] => [String c EmptyString]
           end
  end.

(** [s.split(sep, 1)], [None] when it has a single part *)
Fixpoint split_once (sep : ascii) (s : string) : option (string * string) :=
  match s with
  | EmptyString => None
  | String c rest =>
      if Ascii.eqb c sep then Some (EmptyString, rest)
      else match split_once sep rest with
           | Some (a, b) => Some (String c a, b)
           | None => None
           end
  end.

Definition hex_digit (c : ascii) : option N :=
  let n := N_of_ascii c in
  if (48 <=? n)%N && (n <=? 57)%N then Some (n - 48)%N
  else if (65 <=? n)%N && (n <=? 70)%N then Some (n - 55)%N
  else if (97 <=? n)%N && (n <=? 102)%N then Some (n - 87)%N
  else None.

(** [s.replace('+', ' ')] *)
Fixpoint plus_to_space (s : string) : string :=
  match s with
  | EmptyString => EmptyString
  | String c rest =>
      String (if Ascii.eqb c "+"%char then " "%char else c) (plus_to_space rest)
  end.

(** [urllib.parse.unquote] on the bytes of the string *)
Fixpoint unquote (s : string) : string :=
  match s with
  | EmptyString => EmptyString
  | String c tl =>
      if Ascii.eqb c "%"%char then
        match tl with
        | String a (String b rest) =>
            match hex_digit a, hex_digit b with
            | Some x, Some y => String (ascii_of_N (16 * x + y)) (unquote rest)
            | _, _ => String c (unquote tl)
            end
        | _ => String c (unquote tl)
        end
      else String c (unquote tl)
  end.

(** [urllib.parse.parse_qsl] *)
Fixpoint parse_fields (fields : list string) : list (string * string) :=
  match fields with
  | [] => []
  | name_value :: rest =>
      match split_once "="%char name_value with
      | Some (name, value) =>
          if String.eqb value "" then parse_fields rest
          else (unquote (plus_to_space name), unquote (plus_to_space value))
                 :: parse_fields rest
      | None => parse_fields rest
      end
  end.

Definition parse_qsl (qs : string) : list (string * string) :=
  if String.eqb qs "" then [] else parse_fields (split_char "&"%char qs).

(** [parsed_result[name].append(value)] or [parsed_result[name] = [value]] *)
Fixpoint add_value (name value : string) (d : list (string * list string))
  : list (string * list string) :=
  match d with
  | [] => [(name, [value])]
  | (k, vs) :: rest =>
      if String.eqb k name then (k, vs ++ [value]) :: rest
      else (k, vs) :: add_value name value rest
  end.

Definition parse_qs (qs : string) : Res (list (string * list string)) :=
  Ok (fold_left (fun d nv => add_value (fst nv) (snd nv) d) (parse_qsl qs) []).

(** Calendar arithmetic, after CPython's [_pydatetime]. *)
Definition is_leap (year : Z) : bool :=
  (year mod 4 =? 0) && (negb (year mod 100 =? 0) || (year mod 400 =? 0)).

Definition days_in_month (year month : Z) : Z :=
  if month =? 2 then (if is_leap year then 29 else 28)
  else if (month =? 4) || (month =? 6) || (month =? 9) || (month =? 11) then 30
  else 31.

(** [_DAYS_BEFORE_MONTH], for a common year *)
Definition DAYS_BEFORE_MONTH (month : Z) : Z :=
  match month with
  | 1 => 0 | 2 => 31 | 3 => 59 | 4 => 90 | 5 => 120 | 6 => 151
  | 7 => 181 | 8 => 212 | 9 => 243 | 10 => 273 | 11 => 304 | _ => 334
  end.

Definition days_before_month (year month : Z) : Z :=
  DAYS_BEFORE_MONTH month + (if (2 <? month) && is_leap year then 1 else 0).

Definition days_before_year (year : Z) : Z :=
  let y := year - 1 in y * 365 + y / 4 - y / 100 + y / 400.

(** days from 0001-01-01 to the given date: [_ymd2ord(y, m, d) - 1] *)
Definition ymd2days (year month day : Z) : Z :=
  days_before_year year + days_before_month year month + day - 1.

(** [_ord2ymd(n + 1)] *)
Definition days2ymd (n : Z) : Z * Z * Z :=
  let n400 := n / 146097 in
  let n := n mod 146097 in
  let n100 := n / 36524 in
  let n := n mod 36524 in
  let n4 := n / 1461 in
  let n := n mod 1461 in
  let n1 := n / 365 in
  let n := n mod 365 in
  let year := n400 * 400 + 1 + n100 * 100 + n4 * 4 + n1 in
  if (n1 =? 4) || (n100 =? 4) then (year - 1, 12, 31)
  else
    let leapyear := (n1 =? 3) && (negb (n4 =? 24) || (n100 =? 3)) in
    let month := Z.shiftr (n + 50) 5 in
    let preceding :=
      DAYS_BEFORE_MONTH month + (if (2 <? month) && leapyear then 1 else 0) in
    if n <? preceding then
      let month := month - 1 in
      let preceding :=
        preceding - (days_in_month 1 month
                     + (if (month =? 2) && leapyear then 1 else 0)) in
      (year, month, n - preceding + 1)
    else (year, month, n - preceding + 1).

Definition digit_char (d : Z) : ascii := ascii_of_N (Z.to_N (48 + d mod 10)).

(** the last [width] decimal digits of [n], most significant first *)
Fixpoint zero_pad (width : nat) (n : Z) : string :=
  match width with
  | O => EmptyString
  | S w => zero_pad w (n / 10) +:+ String (digit_char n) EmptyString
  end.

(** [dt.isoformat()] for [tzinfo=UTC]: the fraction is printed only when
    the microsecond is not zero. *)
Definition isoformat (t : Z) : string :=
  let '(year, month, day) := days2ymd (t / US_PER_DAY) in
  let us := t mod US_PER_DAY in
  let secs := us / US_PER_SEC in
  let frac := us mod US_PER_SEC in
  zero_pad 4 year +:+ "-" +:+ zero_pad 2 month +:+ "-" +:+ zero_pad 2 day
    +:+ "T" +:+ zero_pad 2 (secs / 3600) +:+ ":" +:+ zero_pad 2 (secs / 60 mod 60)
    +:+ ":" +:+ zero_pad 2 (secs mod 60)
    +:+ (if frac =? 0 then "" else "." +:+ zero_pad 6 frac)
    +:+ "+00:00".

Definition digit_val (c : ascii) : option Z :=
  let n := N_of_ascii c in
  if (48 <=? n)%N && (n <=? 57)%N then Some (Z.of_N n - 48) else None.

Fixpoint number (cs : list ascii) (acc : Z) : option Z :=
  match cs with
  | [] => Some acc
  | c :: rest =>
      match digit_val c with
      | Some d => number rest (10 * acc + d)
      | None => None
      end
  end.

(** the offset from UTC written after the time, in microseconds *)
Definition parse_offset (tz : list ascii) : option Z :=
  match tz with
  | ["Z"%char] => Some 0
  | sign :: h1 :: h2 :: ":"%char :: m1 :: m2 :: [] =>
      match number [h1; h2] 0, number [m1; m2] 0 with
      | Some hh, Some mm =>
          if (hh <? 24) && (mm <? 60) then
            let off := (hh * 3600 + mm * 60) * US_PER_SEC in
            if Ascii.eqb sign "+"%char then Some off
            else if Ascii.eqb sign "-"%char then Some (- off)
            else None
          else None
      | _, _ => None
      end
  | _ => None
  end.

Definition INVALID_ISO (s : string) : Exn :=
  ValueError ("Invalid isoformat string: '" +:+ s +:+ "'").

(** the wall-clock fields of the fixed-width form, as microseconds since
    0001-01-01T00:00:00 *)
Definition parse_fields_19 (cs : list ascii) : option (Z * list ascii) :=
  match cs with
  | y1 :: y2 :: y3 :: y4 :: "-"%char :: mo1 :: mo2 :: "-"%char :: d1 :: d2
      :: "T"%char :: h1 :: h2 :: ":"%char :: mi1 :: mi2 :: ":"%char
      :: s1 :: s2 :: tz =>
      match number [y1; y2; y3; y4] 0, number [mo1; mo2] 0, number [d1; d2] 0,
            number [h1; h2] 0, number [mi1; mi2] 0, number [s1; s2] 0 with
      | Some year, Some month, Some day, Some hh, Some mi, Some ss =>
          if (1 <=? year) && (1 <=? month) && (month <=? 12) && (1 <=? day)
             && (day <=? days_in_month year month)
             && (hh <? 24) && (mi <? 60) && (ss <? 60)
          then Some (ymd2days year month day * US_PER_DAY
                     + (hh * 3600 + mi * 60 + ss) * US_PER_SEC, tz)
          else None
      | _, _, _, _, _, _ => None
      end
  | _ => None
  end.

(** [datetime.fromisoformat(s).astimezone(UTC)] *)
Definition fromisoformat_utc (s : string) : Res Z :=
  match parse_fields_19 (String.list_ascii_of_string s) with
  | Some (wall, tz) =>
      match parse_offset tz with
      | Some off =>
          if in_dt_range (wall - off) then Ok (wall - off)
          else Raise (OverflowError "date value out of range")
      | None => Raise (INVALID_ISO s)
      end
  | None => Raise (INVALID_ISO s)
  end.

Definition lib : PyLib := mkPyLib parse_qs fromisoformat_utc isoformat.

End Ref.

(** ** Concrete inputs used below *)
Module Demo.

(** 2026-11-04T09:00:00+00:00 *)
Definition morning : Z := 63929379600000000.

Definition timed (start end_ summary : string) : RawEvent :=
  {| ev_start := Some {| dateTime := Some start; date := None |};
     ev_end := Some {| dateTime := Some end_; date := None |};
     ev_summary := Some summary |}.

Definition all_day (start end_ summary : string) : RawEvent :=
  {| ev_start := Some {| dateTime := None; date := Some start |};
     ev_end := Some {| dateTime := None; date := Some end_ |};
     ev_summary := Some summary |}.

(** a store that answers every list request with [items] *)
Definition serving (items : list RawEvent) : CalendarStore :=
  {| events_list := fun _ => Ok (Some items);
     events_insert := fun _ =>
       Ok {| htmlLink := Some "https://calendar.example/e1";
             created_id := Some "e1" |} |}.

Definition standup : RawEvent :=
  timed "2026-11-04T09:30:00+00:00" "2026-11-04T10:00:00+00:00" "Standup".

Definition review : RawEvent :=
  timed "2026-11-04T11:00:00+00:00" "2026-11-04T12:00:00+00:00" "Review".

Definition holiday : RawEvent := all_day "2026-11-05" "2026-11-06" "Holiday".

End Demo.

Module Crowded.

(** Twenty reviews, then one more event. *)
Definition day (last : RawEvent) : list RawEvent :=
  replicate 20 Demo.review ++ [last].

Definition with_standup : CalendarStore := Demo.serving (day Demo.standup).
Definition with_holiday : CalendarStore := Demo.serving (day Demo.holiday).

End Crowded.

Module Outage.

(** a backend that refuses every request *)
Definition store : CalendarStore :=
  {| events_list := fun _ => Raise (HttpError "503 Service Unavailable");
     events_insert := fun _ => Raise (HttpError "503 Service Unavailable") |}.

End Outage.

Module Untitled.

(** an event saved without a title: the backend sends no ['summary'] *)
Definition event : RawEvent :=
  {| ev_start := Some {| dateTime := Some "2026-11-04T10:15:00+00:00"%string;
                         date := None |};
     ev_end := Some {| dateTime := Some "2026-11-04T10:45:00+00:00"%string;
                       date := None |};
     ev_summary := None |}.

End Untitled.

(** ** Vocabulary of the statements *)

(** The pair an output entry was deduplicated by. *)
Definition out_key (entry : OutEvent) : option string * string :=
  (out_start entry, out_summary entry).

(** The raw event has the deduplication key [k]. *)
Definition has_key (k : option string * string) (event : RawEvent) : bool :=
  match event_key event with
  | Ok k' => bool_decide (k' = k)
  | Raise _ => false
  end.

(** The first raw event, in backend order, whose key is [k]. *)
Definition first_with_key (k : option string * string) (events : list RawEvent)
  : option RawEvent :=
  List.find (has_key k) events.

(** The output entries whose key is [k]. *)
Definition entries_with_key (k : option string * string) (out : list OutEvent)
  : list OutEvent :=
  filter (fun entry => out_key entry = k) out.

(** A slot between two instants at least [min_duration] minutes apart,
    and whose [duration_minutes] says so. *)
Definition long_enough {lib : PyLib} (min_duration : Z) (slot : Slot) : Prop :=
  exists a b, slot = make_slot a b
              /\ min_duration * US_PER_MIN <= b - a
              /\ min_duration <= duration_minutes slot.

(** Both ends of the event carry a ['dateTime'] that parses. *)
Definition timed_event {lib : PyLib} (event : RawEvent) : Prop :=
  (exists start, event_instant "start" (ev_start event) = Ok start)
  /\ (exists end_, event_instant "end" (ev_end event) = Ok end_).

(** A time object with a ['date'] and no ['dateTime']. *)
Definition date_only (t : option TimeObj) : Prop :=
  exists d, t = Some {| dateTime := None; date := Some d |}.

(** The backend returns no more than [maxResults] events. *)
Definition honours_maxResults (store : CalendarStore) : Prop :=
  forall r items,
    events_list store r = Ok (Some items) -> (length items <= maxResults r)%nat.

Definition truncate_response (n : nat) (response : Res (option (list RawEvent)))
  : Res (option (list RawEvent)) :=
  match response with
  | Ok (Some items) => Ok (Some (take n items))
  | other => other
  end.

(** A backend that honours [maxResults] by cutting the full answer of
    [base] after the first [maxResults] events. *)
Definition paginated (base : CalendarStore) : CalendarStore :=
  {| events_list := fun r => truncate_response (maxResults r) (events_list base r);
     events_insert := events_insert base |}.

(** Two calendars whose answers differ only after the first [n] events. *)
Definition agree_on_first (n : nat) (base1 base2 : CalendarStore) : Prop :=
  forall r, truncate_response n (events_list base1 r)
            = truncate_response n (events_list base2 r).

(** The two instants of a timed event. *)
Definition span_of {lib : PyLib} (event : RawEvent) (sp : Z * Z) : Prop :=
  event_instant "start" (ev_start event) = Ok sp.1
  /\ event_instant "end" (ev_end event) = Ok sp.2.

(** The slot between the two instants of [iv]. *)
Definition slot_of {lib : PyLib} (iv : Z * Z) : Slot := make_slot iv.1 iv.2.

(** Intervals that follow one another between [lo] and [hi]: none starts
    before the end of the one before it. *)
Fixpoint chained (lo : Z) (ivs : list (Z * Z)) (hi : Z) : Prop :=
  match ivs with
  | [] => lo <= hi
  | iv :: rest => lo <= iv.1 /\ chained iv.2 rest hi
  end.

(** Two half-open intervals that share no instant. *)
Definition apart (iv sp : Z * Z) : Prop := iv.2 <= sp.1 \/ sp.2 <= iv.1.

(** [iv1] ends before [iv2] starts. *)
Definition before (iv1 iv2 : Z * Z) : Prop := iv1.2 <= iv2.1.

(** Ordered by start, as the backend is asked to answer. *)
Definition by_start (sp1 sp2 : Z * Z) : Prop := sp1.1 <= sp2.1.

(** ** The conversation graph and the chat turn (lines 230-289, 385-443)

    The language model, the node that executes the requested tools and
    the number of rounds the graph engine allows are parameters; what is
    embedded is the nodes of the file and the way it wires them. *)

(** The outcome of code whose exception is only ever printed: the value,
    or [str(e)]. *)
Inductive Attempt (A : Type) : Type :=
  | Completed (a : A)
  | Failed (message : string).
Arguments Completed {A} a.
Arguments Failed {A} message.

#[global] Instance Attempt_ret : MRet Attempt := fun A a => Completed a.
#[global] Instance Attempt_bind : MBind Attempt := fun A B f r =>
  match r with
  | Completed a => f a
  | Failed message => Failed message
  end.

Inductive Role : Type := Human | System | Assistant | ToolResult.

Record ToolCall : Type := mkToolCall {
  call_name : string;
  call_args : string;
  call_id : string
}.

(** A chat message; only an assistant message has the attribute
    [tool_calls]. *)
Record Message : Type := mkMessage {
  role : Role;
  content : string;
  tool_calls : list ToolCall
}.

Definition HumanMessage (text : string) : Message := mkMessage Human text [].
Definition SystemMessage (text : string) : Message := mkMessage System text [].
Definition AIMessage (text : string) (calls : list ToolCall) : Message :=
  mkMessage Assistant text calls.

(** The dict returned by the tool [today]. *)
Record TodayInfo : Type := mkTodayInfo {
  info_role : string;
  info_content : string
}.

(** [class State(TypedDict)] *)
Record State : Type := mkState {
  messages : list Message;
  today_info : option TodayInfo
}.

(** The content of the system message of line 248. *)
Definition POLICY : string :=
  "Your role is to schedule events based on user instructions. Follow these rules:
        1. Firstly check the todays date by using the above node called provide_today_info.
        2. Parse user instructions to extract the date, time range, and description.
        3. Assume the user's specified time is in their local timezone. For this workflow, use 'Asia/Kolkata' (UTC+5:30) as the default timezone.
        4. Convert the extracted date and time into ISO 8601 UTC format.
        5. ALWAYS CALL THE TOOLS IN ISO 8601 UTC FORMAT ONLY.Now to call tools in the following order:
        - `list_events_tool`: To check for existing events on the specified date.
        - `find_available_slots_tool`: To find gaps between events (optional if the user provides a specific time).
        - `create_event_tool`: To schedule the meeting, using the validated date and time.
        6. Use the current date provided by the system to calculate dates like tomorrow or next week etc.
        7. Provide the final output in precise and correct manner.".

(** One entry of [st.session_state.conversation_history]. *)
Record HistoryEntry : Type := mkHistoryEntry {
  entry_role : string;
  entry_content : string
}.

(** One entry of [st.session_state.tool_outputs]; its ["output"] is always
    [None]. *)
Record ToolOutput : Type := mkToolOutput {
  tool_name : string;
  tool_input : string
}.

Record SessionState : Type := mkSessionState {
  conversation_history : list HistoryEntry;
  tool_outputs : list ToolOutput
}.

(** Lines 25-29. *)
Definition initial_session : SessionState :=
  {| conversation_history := []; tool_outputs := [] |}.

Section Agent.
(** [now.strftime(format)] *)
Variable strftime : string -> Z -> string.
(** [llm_with_tools.invoke(messages)]: the content and the tool calls of
    the reply *)
Variable llm : list Message -> Attempt (string * list ToolCall).
(** the node [ToolNode(tools)]: the messages it adds for the tool calls of
    the last message *)
Variable tool_node : list Message -> Attempt (list Message).
(** the calls of the model the engine allows before it gives up, and the
    text of the exception it then raises *)
Variable max_rounds : nat.
Variable limit_message : string.
Variable now : Z.

(** Lines 83-90. *)
Definition today : TodayInfo :=
  {| info_role := "system";
     info_content := "Today's date is " +:+ strftime "%Y-%m-%d" now
                       +:+ ", and it is a " +:+ strftime "%A" now +:+ " (UTC)." |}.

(** Lines 241-244. *)
Definition provide_today_info (state : State) : State :=
  {| messages := messages state; today_info := Some today |}.

(** Lines 246-262. *)
Definition inject_additional_system_message (state : State) : State :=
  {| messages := messages state ++ [SystemMessage POLICY];
     today_info := today_info state |}.

(** Lines 264-266: the update [{"messages": [reply]}]. *)
Definition call_llm_model (state : State) : Attempt (list Message) :=
  reply ← llm (messages state);
  mret [AIMessage reply.1 reply.2].

(** The reducer of the [messages] key: new messages go to the end. *)
Definition add_messages (state : State) (update : list Message) : State :=
  {| messages := messages state ++ update; today_info := today_info state |}.

(** [tools_condition]: to the tools when the last message is an assistant
    message with tool calls, else to the end. *)
Definition tools_condition (state : State) : bool :=
  match last (messages state) with
  | Some message =>
      match role message, tool_calls message with
      | Assistant, _ :: _ => true
      | _, _ => false
      end
  | None => false
  end.

(** Lines 283-287: [process_input], then [tools] and back, or the end. *)
Fixpoint process_input (rounds : nat) (state : State) : Attempt State :=
  match rounds with
  | O => Failed limit_message
  | S rounds' =>
      update ← call_llm_model state;
      let state := add_messages state update in
      if tools_condition state then
        results ← tool_node (messages state);
        process_input rounds' (add_messages state results)
      else mret state
  end.

(** Lines 279-281 and [graph.invoke]. *)
Definition graph_invoke (input : list Message) : Attempt State :=
  process_input max_rounds
    (inject_additional_system_message
       (provide_today_info {| messages := input; today_info := None |})).

(** Lines 397-404. *)
Definition to_message (msg : HistoryEntry) : Message :=
  if String.eqb (entry_role msg) "user" then HumanMessage (entry_content msg)
  else SystemMessage (entry_content msg).

Definition turn_messages (history : list HistoryEntry) (user_input : string)
  : list Message :=
  map to_message (removelast history) ++ [HumanMessage user_input].

(** Lines 411-421: the text and the tool calls read off the last
    message. *)
Definition read_result (result : State) : Attempt (string * list ToolOutput) :=
  match last (messages result) with
  | None => Failed "list index out of range"
  | Some last_message =>
      let tool_outputs :=
        match role last_message with
        | Assistant =>
            map (fun tool_call => {| tool_name := call_name tool_call;
                                     tool_input := call_args tool_call |})
                (tool_calls last_message)
        | _ => []
        end in
      mret (content last_message, tool_outputs)
  end.

(** Lines 385-443, without the drawing of the page. *)
Definition handle_input (user_input : string) (session : SessionState)
  : SessionState :=
  if String.eqb user_input "" then session
  else
    let history :=
      conversation_history session
        ++ [ {| entry_role := "user"; entry_content := user_input |} ] in
    match (result ← graph_invoke (turn_messages history user_input);
           read_result result) with
    | Completed (last_message, tool_outputs) =>
        {| conversation_history :=
             history ++ [ {| entry_role := "assistant";
                             entry_content := last_message |} ];
           tool_outputs := tool_outputs |}
    | Failed message =>
        {| conversation_history :=
             history ++ [ {| entry_role := "assistant";
                             entry_content :=
                               "Error processing request: " +:+ message |} ];
           tool_outputs := tool_outputs session |}
    end.

(** a session after the inputs of [inputs], one page run each *)
Definition after_inputs (inputs : list string) : SessionState :=
  fold_left (fun session user_input => handle_input user_input session)
    inputs initial_session.

End Agent.


(** The history made of one question and one answer per pair. *)
Definition exchanges (pairs : list (string * string)) : list HistoryEntry :=
  concat (map (fun qa : string * string =>
                 [ {| entry_role := "user"; entry_content := qa.1 |};
                   {| entry_role := "assistant"; entry_content := qa.2 |} ])
              pairs).

Module Scripted.

(** [strftime] for the two formats the file uses. *)
Definition weekday_name (days : Z) : string :=
  match days mod 7 with
  | 0 => "Monday" | 1 => "Tuesday" | 2 => "Wednesday" | 3 => "Thursday"
  | 4 => "Friday" | 5 => "Saturday" | _ => "Sunday"
  end.

Definition strftime (format : string) (t : Z) : string :=
  if String.eqb format "%Y-%m-%d" then
    let '(year, month, day) := Ref.days2ymd (t / US_PER_DAY) in
    Ref.zero_pad 4 year +:+ "-" +:+ Ref.zero_pad 2 month +:+ "-"
      +:+ Ref.zero_pad 2 day
  else if String.eqb format "%A" then weekday_name (t / US_PER_DAY)
  else "".

Definition list_call : ToolCall :=
  {| call_name := "list_events_tool"; call_args := "{}"; call_id := "call_1" |}.

(** a model that asks for the listing once and answers when it has seen a
    tool result *)
Definition llm (history : list Message) : Attempt (string * list ToolCall) :=
  match last history with
  | Some {| role := ToolResult |} => Completed ("You have one event today."%string, [])
  | _ => Completed (""%string, [list_call])
  end.

(** a model that asks for the listing again and again *)
Definition restless_llm (history : list Message)
  : Attempt (string * list ToolCall) :=
  Completed (""%string, [list_call]).

(** a model that answers at once *)
Definition direct_llm (history : list Message)
  : Attempt (string * list ToolCall) :=
  Completed ("Hello!"%string, []).

Definition tool_node (history : list Message) : Attempt (list Message) :=
  Completed [mkMessage ToolResult "[{'start': '2026-11-04T09:30:00+00:00'}]" []].

Definition LIMIT : string := "Recursion limit reached".

End Scripted.

(** ** The drawing of a listing (lines 291-328)

    What [display_events] sends to the page, in order.  The string
    methods it uses are the methods of the class [PyStr]. *)

Class PyStr : Type := mkPyStr {
  (** [sub in s] *)
  contains : string -> string -> bool;
  (** [s.split(sep)] *)
  split : string -> string -> list string;
  (** [sep.join(parts)] *)
  join : string -> list string -> string;
  (** [s.strip()] *)
  strip : string -> string
}.

Inductive Widget : Type :=
  | Markdown (body : string)
  | Info (body : string).

(** the double quote *)
Definition DQ : string := String "034"%char EmptyString.
(** the line feed, and the blank line between the parts of a reply *)
Definition NL : string := String "010"%char EmptyString.
Definition NLNL : string := NL +:+ NL.

Definition MARKER : string := "Here are your scheduled events".

(** Lines 319-324: the card of one event. *)
Definition card (time_part summary : string) : string :=
  "
        <div class=" +:+ DQ +:+ "event-card" +:+ DQ +:+ ">
            <div><span class=" +:+ DQ +:+ "time-badge" +:+ DQ +:+ ">"
    +:+ time_part +:+ "</span></div>
            <h4>"
    +:+ summary +:+ "</h4>
        </div>
        ".

Section Display.
Context {str : PyStr}.

(** [line.split("**")[1] if "**" in line else line] *)
Definition between_stars (line : string) : Res string :=
  if contains "**" line then
    match split "**" line with
    | _ :: part :: _ => Ok part
    | _ => Raise (IndexError "list index out of range")
    end
  else Ok line.

(** Lines 307-324: the loop over the pairs of lines; the widgets drawn
    before an exception stay on the page. *)
Fixpoint draw_cards (events : list string) : list Widget * Res unit :=
  match events with
  | time_line :: summary_line :: rest =>
      match between_stars (strip time_line) with
      | Raise e => ([], Raise e)
      | Ok time_part =>
          match between_stars (strip summary_line) with
          | Raise e => ([], Raise e)
          | Ok summary =>
              let '(drawn, outcome) := draw_cards rest in
              (Markdown (card time_part summary) :: drawn, outcome)
          end
      end
  | _ => ([], Ok tt)
  end.

(** [[e for e in events_text.split("\n") if e.strip()]] *)
Definition event_lines (events_text : string) : list string :=
  filter (fun e => strip e <> ""%string) (split NL events_text).

(** Lines 292-328. *)
Definition display_events (response_text : string) : list Widget * Res unit :=
  if negb (contains MARKER response_text) then ([Markdown response_text], Ok tt)
  else
    match split NLNL response_text with
    | [] => ([], Raise (IndexError "list index out of range"))
    | header :: rest =>
        let parts := header :: rest in
        let events_text := join NLNL (removelast rest) in
        let '(drawn, outcome) := draw_cards (event_lines events_text) in
        match outcome with
        | Raise e => (Markdown ("### " +:+ header) :: drawn, Raise e)
        | Ok _ =>
            (Markdown ("### " +:+ header) :: drawn
               ++ (if decide (2 < length parts)%nat
                   then match last parts with
                        | Some note => [Info note]
                        | None => []
                        end
                   else []),
             Ok tt)
        end
    end.

End Display.

(** The string methods, for byte strings.  [strip] removes the ASCII
    white space only. *)
Module RefStr.

Fixpoint starts_with (prefix s : string) : bool :=
  match prefix, s with
  | EmptyString, _ => true
  | String p prefix', String c s' => Ascii.eqb p c && starts_with prefix' s'
  | String _ _, EmptyString => false
  end.

Fixpoint contains (sub s : string) : bool :=
  starts_with sub s
  || match s with
     | EmptyString => false
     | String _ s' => contains sub s'
     end.

(** the pieces of [s] between the occurrences of [sep], read from the
    left; [skip] characters of a separator just found are still to pass,
    and [piece] is the current piece, reversed *)
Fixpoint split_from (sep : string) (skip : nat) (piece : list ascii) (s : string)
  : list string :=
  match s with
  | EmptyString => [String.string_of_list_ascii (rev piece)]
  | String c s' =>
      match skip with
      | S skip' => split_from sep skip' piece s'
      | O =>
          if starts_with sep s
          then String.string_of_list_ascii (rev piece)
                 :: split_from sep (String.length sep - 1) [] s'
          else split_from sep 0 (c :: piece) s'
      end
  end.

Definition split (sep s : string) : list string := split_from sep 0 [] s.

Fixpoint join (sep : string) (parts : list string) : string :=
  match parts with
  | [] => EmptyString
  | [part] => part
  | part :: rest => part +:+ sep +:+ join sep rest
  end.

Definition is_space (c : ascii) : bool :=
  let n := N_of_ascii c in
  ((9 <=? n)%N && (n <=? 13)%N) || ((28 <=? n)%N && (n <=? 32)%N).

Fixpoint lstrip (s : string) : string :=
  match s with
  | String c s' => if is_space c then lstrip s' else s
  | EmptyString => EmptyString
  end.

Definition strip (s : string) : string :=
  String.string_of_list_ascii
    (rev (String.list_ascii_of_string
            (lstrip (String.string_of_list_ascii
                       (rev (String.list_ascii_of_string (lstrip s))))))).

Definition str : PyStr := mkPyStr contains split join strip.

End RefStr.

Module Replies.

(** a reply with the header and one block of events *)
Definition listing : string :=
  "Here are your scheduled events:

**09:30 - 10:00**
**Standup**".

(** the same with a second event, a line left over, and a closing note *)
Definition listing_with_note : string :=
  "Here are your scheduled events:

**09:30 - 10:00**
**Standup**
11:00
Review
dangling

Note: all times are UTC.".

End Replies.

(** * Properties *)

(** ** Unfolding the monads *)

Ltac unfold_tool :=
  unfold run, try_except, call_list, call_insert, lift,
    mbind, mret, Tool_bind, Tool_ret, Res_bind, Res_ret in *.

Lemma item_Ok {A : Type} (key : string) (d : option A) (a : A) :
  item key d = Ok a <-> d = Some a.
Proof. destruct d; simpl; split; congruence. Qed.

Lemma bind_Ok {A B : Type} (r : Res A) (f : A -> Res B) (b : B) :
  (r ≫= f) = Ok b <-> exists a, r = Ok a /\ f a = Ok b.
Proof.
  destruct r as [a|e]; simpl; split.
  - intros H. exists a. split; [reflexivity | exact H].
  - intros (a' & Ha & Hf). injection Ha as ->. exact Hf.
  - discriminate.
  - intros (a' & Ha & _). discriminate.
Qed.

(** ** create_event_tool *)

Section CreateEvent.
Context {lib : PyLib}.
Variables (store : CalendarStore) (now : Z).

Lemma create_event_end_before_start summary start_time end_time start end_ :
  fromisoformat_utc start_time = Ok start ->
  fromisoformat_utc end_time = Ok end_ ->
  end_ <= start ->
  run (create_event_tool store now summary start_time end_time)
  = (Ok (CreateError END_BEFORE_START), []).
Proof.
  intros Hs He Hle. unfold create_event_tool. unfold_tool.
  rewrite Hs, He.
  destruct (Z.geb_spec start end_) as [_|Hlt]; [reflexivity | lia].
Qed.

Lemma create_event_in_the_past summary start_time end_time start end_ :
  fromisoformat_utc start_time = Ok start ->
  fromisoformat_utc end_time = Ok end_ ->
  start < end_ ->
  start < now ->
  run (create_event_tool store now summary start_time end_time)
  = (Ok (CreateError IN_THE_PAST), []).
Proof.
  intros Hs He Hlt Hpast. unfold create_event_tool. unfold_tool.
  rewrite Hs, He.
  destruct (Z.geb_spec start end_) as [Hge|_]; [lia |].
  destruct (Z.ltb_spec start now) as [_|Hge]; [reflexivity | lia].
Qed.

(** The insert request is sent exactly when both checks pass. *)
Lemma create_event_inserts summary start_time end_time start end_ :
  fromisoformat_utc start_time = Ok start ->
  fromisoformat_utc end_time = Ok end_ ->
  start < end_ ->
  now <= start ->
  snd (run (create_event_tool store now summary start_time end_time))
  = [ReqInsert {| body_summary := summary;
                  body_start := isoformat start;
                  body_end := isoformat end_ |}].
Proof.
  intros Hs He Hlt Hfut. unfold create_event_tool. unfold_tool.
  rewrite Hs, He.
  destruct (Z.geb_spec start end_) as [Hge|_]; [lia |].
  destruct (Z.ltb_spec start now) as [Hl|_]; [lia |].
  simpl. destruct (events_insert store _); reflexivity.
Qed.

End CreateEvent.

(** ** The deduplication loop *)

Lemma format_event_key event entry :
  format_event event = Ok entry -> event_key event = Ok (out_key entry).
Proof.
  unfold format_event, event_key, out_key.
  destruct (ev_start event), (ev_summary event), (ev_end event); simpl;
    try discriminate.
  intros [= <-]. reflexivity.
Qed.

Lemma entries_with_key_app k out1 out2 :
  entries_with_key k (out1 ++ out2)
  = entries_with_key k out1 ++ entries_with_key k out2.
Proof. unfold entries_with_key. apply filter_app. Qed.

Lemma entries_with_key_nil k (out : list OutEvent) :
  k ∉ map out_key out -> entries_with_key k out = [].
Proof.
  unfold entries_with_key. induction out as [|o out IH]; intros Hk.
  - reflexivity.
  - rewrite filter_cons. simpl in Hk. rewrite not_elem_of_cons in Hk.
    destruct Hk as [Hne Hk]. destruct (decide (out_key o = k)) as [Heq|_].
    + congruence.
    + apply IH, Hk.
Qed.

(** The loop's invariant is that [seen] holds exactly the keys of
    [unique_events]; under it the entries of a key already seen are never
    touched again, and a fresh key gets the entry of its first event. *)
Lemma dedup_loop_entries events : forall unique_events seen out,
  dedup_loop events unique_events seen = Ok out ->
  (forall k, k ∈ seen <-> k ∈ map out_key unique_events) ->
  forall k,
    (k ∈ seen -> entries_with_key k out = entries_with_key k unique_events) /\
    (k ∉ seen ->
       match first_with_key k events with
       | Some first => exists entry,
           format_event first = Ok entry /\ entries_with_key k out = [entry]
       | None => entries_with_key k out = []
       end).
Proof.
  induction events as [|event rest IH]; intros acc seen out Hrun Hinv k.
  - simpl in Hrun. injection Hrun as <-. split; [reflexivity |].
    intros Hk. simpl. apply entries_with_key_nil. rewrite <- Hinv. exact Hk.
  - simpl in Hrun. apply bind_Ok in Hrun as (ke & Hke & Hrun).
    unfold first_with_key. simpl. unfold has_key at 1. rewrite Hke.
    destruct (bool_decide_reflect (ke ∈ seen)) as [Hseen|Hfresh].
    + (* duplicate: skipped *)
      specialize (IH acc seen out Hrun Hinv k) as [IHin IHout].
      split; [exact IHin |]. intros Hk.
      destruct (bool_decide_reflect (ke = k)) as [->|_]; [contradiction |].
      apply IHout, Hk.
    + (* first occurrence: appended *)
      apply bind_Ok in Hrun as (entry & Hentry & Hrun).
      pose proof (format_event_key _ _ Hentry) as Hkey.
      rewrite Hke in Hkey. injection Hkey as Hkey.
      assert (Hinv' : forall k', k' ∈ seen ∪ {[ke]}
                                 <-> k' ∈ map out_key (acc ++ [entry])).
      { intros k'. rewrite map_app, elem_of_app, elem_of_union, Hinv. simpl.
        rewrite elem_of_singleton, list_elem_of_singleton, Hkey. reflexivity. }
      specialize (IH _ _ out Hrun Hinv' k) as [IHin IHout].
      split.
      * intros Hk. rewrite IHin by (apply elem_of_union_l; exact Hk).
        rewrite entries_with_key_app.
        assert (Hne : out_key entry <> k) by (intros <-; subst ke; contradiction).
        unfold entries_with_key at 2. rewrite filter_cons, filter_nil.
        destruct (decide (out_key entry = k)); [contradiction |].
        apply app_nil_r.
      * intros Hk. destruct (bool_decide_reflect (ke = k)) as [->|Hne].
        -- exists entry. split; [exact Hentry |].
           rewrite IHin by (apply elem_of_union_r, elem_of_singleton; reflexivity).
           rewrite entries_with_key_app.
           rewrite (entries_with_key_nil k acc) by (rewrite <- Hinv; exact Hk).
           unfold entries_with_key. rewrite filter_cons, filter_nil.
           destruct (decide (out_key entry = k)); [reflexivity | congruence].
        -- apply IHout. rewrite elem_of_union, elem_of_singleton.
           intros [Hin|Heq]; [contradiction | congruence].
Qed.

(** Every event that reaches the loop's end had a key. *)
Lemma dedup_loop_keys events : forall unique_events seen out,
  dedup_loop events unique_events seen = Ok out ->
  forall event, event ∈ events -> exists k, event_key event = Ok k.
Proof.
  induction events as [|event rest IH]; intros acc seen out Hrun e He.
  - inversion He.
  - simpl in Hrun. apply bind_Ok in Hrun as (ke & Hke & Hrun).
    apply elem_of_cons in He as [->|He]; [eauto |].
    destruct (bool_decide (ke ∈ seen)).
    + eapply IH; eauto.
    + apply bind_Ok in Hrun as (entry & _ & Hrun). eapply IH; eauto.
Qed.

Lemma dedup_loop_length events : forall unique_events seen out,
  dedup_loop events unique_events seen = Ok out ->
  (length out <= length unique_events + length events)%nat.
Proof.
  induction events as [|event rest IH]; intros acc seen out Hrun.
  - simpl in Hrun. injection Hrun as <-. simpl. lia.
  - simpl in Hrun. apply bind_Ok in Hrun as (ke & _ & Hrun). simpl.
    destruct (bool_decide (ke ∈ seen)).
    + apply IH in Hrun. lia.
    + apply bind_Ok in Hrun as (entry & _ & Hrun). apply IH in Hrun.
      rewrite length_app in Hrun. simpl in Hrun. lia.
Qed.

(** ** list_events_tool *)

Lemma timedelta_days_7 : timedelta_days 7 = Ok (7 * US_PER_DAY).
Proof. reflexivity. Qed.

Lemma dt_add_Ok dt td t : dt_add dt td = Ok t <-> (t = dt + td /\ DT_MIN <= t <= DT_MAX).
Proof.
  unfold dt_add, in_dt_range.
  destruct (Z.leb_spec DT_MIN (dt + td)), (Z.leb_spec (dt + td) DT_MAX); simpl;
    split; try discriminate; try (intros [= <-]; lia);
    intros [-> ?]; try reflexivity; lia.
Qed.

Lemma dt_add_in_range dt td :
  DT_MIN <= dt + td <= DT_MAX -> dt_add dt td = Ok (dt + td).
Proof. intros H. apply dt_add_Ok. split; [reflexivity | exact H]. Qed.

Section ListEvents.
Context {lib : PyLib}.
Variables (store : CalendarStore) (now : Z).

(** The fetch sends one list request, catches every exception and returns
    one of three things. *)
Lemma run_fetch_events time_min time_max :
  run (fetch_events store time_min time_max)
  = (Ok match events_list store (list_request time_min time_max) with
        | Raise e => Text ("Error fetching events: " +:+ exn_str e)
        | Ok events_result =>
            match dedup_loop (default [] events_result) [] ∅ with
            | Raise e => Text ("Error fetching events: " +:+ exn_str e)
            | Ok [] => Text (no_events_message time_min time_max)
            | Ok unique_events => Events unique_events
            end
        end,
     [ReqList (list_request time_min time_max)]).
Proof.
  unfold fetch_events. unfold_tool. simpl.
  destruct (events_list store _) as [events_result|e]; [|reflexivity].
  destruct (dedup_loop _ _ _) as [[|entry out]|e]; reflexivity.
Qed.

(** The tool computes the default week, reads the bounds and either
    rejects the query or fetches. *)
Lemma run_list_events_tool_any query :
  run (list_events_tool store now query)
  = match dt_add now (7 * US_PER_DAY) with
    | Raise e => (Raise e, [])
    | Ok later =>
        match query_bounds query (isoformat now) (isoformat later) with
        | Raise _ => (Ok (Text INVALID_QUERY), [])
        | Ok (time_min, time_max) => run (fetch_events store time_min time_max)
        end
    end.
Proof.
  unfold list_events_tool. rewrite timedelta_days_7.
  unfold run, lift, mbind, Tool_bind at 1 2. simpl.
  destruct (dt_add now (7 * US_PER_DAY)) as [later|e]; [|reflexivity].
  destruct (query_bounds _ _ _) as [[time_min time_max]|e]; reflexivity.
Qed.

(** With a clock that leaves room for the default week: *)
Lemma run_list_events_tool query :
  DT_MIN <= now + 7 * US_PER_DAY <= DT_MAX ->
  run (list_events_tool store now query)
  = match query_bounds query (isoformat now) (isoformat (now + 7 * US_PER_DAY)) with
    | Raise _ => (Ok (Text INVALID_QUERY), [])
    | Ok (time_min, time_max) => run (fetch_events store time_min time_max)
    end.
Proof.
  intros Hclock. rewrite run_list_events_tool_any.
  rewrite (dt_add_in_range _ _ Hclock). reflexivity.
Qed.

Lemma query_bounds_no_equals q time_min time_max :
  has_equals q = false ->
  query_bounds (Some q) time_min time_max = Ok (time_min, time_max).
Proof.
  intros Hq. unfold query_bounds. rewrite Hq, andb_false_r. reflexivity.
Qed.

Lemma query_bounds_parsed q d params time_min time_max :
  q <> ""%string ->
  has_equals q = true ->
  parse_qs q = Ok d ->
  first_values d = Ok params ->
  query_bounds (Some q) time_min time_max
  = Ok (params_get "start_time" params time_min,
        params_get "end_time" params time_max).
Proof.
  intros Hne Heq Hd Hparams. unfold query_bounds.
  destruct (String.eqb_spec q "") as [->|_]; [contradiction |].
  rewrite Heq. simpl. rewrite Hd. simpl. rewrite Hparams. reflexivity.
Qed.

End ListEvents.

(** ** find_available_slots_tool *)

Lemma timedelta_minutes_Ok m td :
  timedelta_minutes m = Ok td -> td = m * US_PER_MIN.
Proof.
  unfold timedelta_minutes, timedelta_us.
  destruct (_ && _); [intros [= <-]; reflexivity | discriminate].
Qed.

Lemma timedelta_minutes_small m :
  - DT_MAX <= m * US_PER_MIN <= DT_MAX ->
  timedelta_minutes m = Ok (m * US_PER_MIN).
Proof.
  intros [Hlo Hhi]. unfold timedelta_minutes, timedelta_us.
  assert (Hd : - TD_MAX_DAYS <= m * US_PER_MIN / US_PER_DAY <= TD_MAX_DAYS).
  { unfold DT_MAX, US_PER_DAY, US_PER_MIN, US_PER_SEC, TD_MAX_DAYS in *. split.
    - apply Z.div_le_lower_bound; lia.
    - apply Z.lt_succ_r, Z.div_lt_upper_bound; lia. }
  destruct (Z.leb_spec (- TD_MAX_DAYS) (m * US_PER_MIN / US_PER_DAY));
    destruct (Z.leb_spec (m * US_PER_MIN / US_PER_DAY) TD_MAX_DAYS);
    simpl; try reflexivity; lia.
Qed.

Lemma duration_minutes_of_ge m a b :
  m * US_PER_MIN <= b - a -> m <= duration_minutes_of a b.
Proof.
  intros H. unfold duration_minutes_of.
  rewrite <- (Z.quot_mul m US_PER_MIN) at 1 by (unfold US_PER_MIN, US_PER_SEC; lia).
  apply Z.quot_le_mono; [unfold US_PER_MIN, US_PER_SEC; lia | exact H].
Qed.

Section FindSlots.
Context {lib : PyLib}.
Variables (store : CalendarStore) (now : Z).

Lemma run_find_available_slots_tool min_duration :
  run (find_available_slots_tool store now min_duration)
  = (response ← events_list store (slots_request now);
     st ← sweep min_duration (default [] response) ([], now);
     trailing now min_duration st,
     [ReqList (slots_request now)]).
Proof.
  unfold find_available_slots_tool. unfold_tool. simpl.
  destruct (events_list store _) as [response|e]; [|reflexivity].
  destruct (sweep _ _ _) as [st|e]; [|reflexivity].
  destruct (trailing _ _ _); reflexivity.
Qed.

(** One iteration, when nothing raises: the gap before the event is
    emitted exactly when it is strictly longer than [min_duration]. *)
Lemma sweep_step_Ok min_duration event available_slots last_end st' :
  sweep_step min_duration event (available_slots, last_end) = Ok st' <->
  exists start end_,
    event_instant "start" (ev_start event) = Ok start
    /\ event_instant "end" (ev_end event) = Ok end_
    /\ timedelta_minutes min_duration = Ok (min_duration * US_PER_MIN)
    /\ DT_MIN <= last_end + min_duration * US_PER_MIN <= DT_MAX
    /\ st' = (if start >? last_end + min_duration * US_PER_MIN
              then available_slots ++ [make_slot last_end start]
              else available_slots,
              Z.max last_end end_).
Proof.
  unfold sweep_step. split.
  - intros H.
    apply bind_Ok in H as (start & Hs & H).
    apply bind_Ok in H as (end_ & He & H).
    apply bind_Ok in H as (td & Htd & H).
    apply bind_Ok in H as (bound & Hb & H).
    pose proof (timedelta_minutes_Ok _ _ Htd) as ->.
    apply dt_add_Ok in Hb as [-> Hrange].
    injection H as <-. exists start, end_. auto.
  - intros (start & end_ & Hs & He & Htd & Hrange & ->).
    rewrite Hs, He. simpl. rewrite Htd. simpl.
    rewrite (dt_add_in_range _ _ Hrange). reflexivity.
Qed.

Lemma trailing_Ok min_duration available_slots last_end slots :
  trailing now min_duration (available_slots, last_end) = Ok slots <->
  timedelta_minutes min_duration = Ok (min_duration * US_PER_MIN)
  /\ DT_MIN <= last_end + min_duration * US_PER_MIN <= DT_MAX
  /\ slots = if end_of_day now >? last_end + min_duration * US_PER_MIN
             then available_slots ++ [make_slot last_end (end_of_day now)]
             else available_slots.
Proof.
  unfold trailing. split.
  - intros H.
    apply bind_Ok in H as (td & Htd & H).
    apply bind_Ok in H as (bound & Hb & H).
    pose proof (timedelta_minutes_Ok _ _ Htd) as ->.
    apply dt_add_Ok in Hb as [-> Hrange].
    destruct (_ >? _); injection H as <-; auto.
  - intros (Htd & Hrange & ->). rewrite Htd. simpl.
    rewrite (dt_add_in_range _ _ Hrange). simpl.
    destruct (_ >? _); reflexivity.
Qed.

Lemma make_slot_long_enough min_duration a b :
  b > a + min_duration * US_PER_MIN -> long_enough min_duration (make_slot a b).
Proof.
  intros Hgap. exists a, b. split; [reflexivity |]. split; [lia |].
  simpl. apply duration_minutes_of_ge. lia.
Qed.

(** The loop keeps every slot it has long enough. *)
Lemma sweep_long_enough min_duration events : forall available_slots last_end st',
  sweep min_duration events (available_slots, last_end) = Ok st' ->
  Forall (long_enough min_duration) available_slots ->
  Forall (long_enough min_duration) (fst st').
Proof.
  induction events as [|event rest IH]; intros acc last_end st' Hrun Hacc.
  - simpl in Hrun. injection Hrun as <-. exact Hacc.
  - simpl in Hrun. apply bind_Ok in Hrun as ([acc1 last1] & Hstep & Hrun).
    apply sweep_step_Ok in Hstep as (start & end_ & _ & _ & _ & _ & Hst).
    injection Hst as -> ->.
    apply (IH _ _ _ Hrun).
    destruct (Z.gtb_spec start (last_end + min_duration * US_PER_MIN)) as [Hgt|_];
      [|exact Hacc].
    apply Forall_app. split; [exact Hacc |].
    apply Forall_cons. split; [|apply Forall_nil; exact I].
    apply make_slot_long_enough. lia.
Qed.

End FindSlots.

Section FindSlotsTotality.
Context {lib : PyLib}.
Variable now : Z.

Lemma event_instant_date_only key t :
  date_only t -> event_instant key t = Raise (KeyError "dateTime").
Proof. intros [d ->]. reflexivity. Qed.

Lemma event_instant_range key t instant :
  parses_in_range lib ->
  event_instant key t = Ok instant -> DT_MIN <= instant <= DT_MAX.
Proof.
  intros Hlib H. unfold event_instant in H.
  apply bind_Ok in H as (obj & _ & H).
  apply bind_Ok in H as (s & _ & H).
  exact (Hlib _ _ H).
Qed.

Lemma sweep_step_date_only min_duration event st :
  date_only (ev_start event) \/ date_only (ev_end event) ->
  exists e, sweep_step min_duration event st = Raise e.
Proof.
  intros Hday. destruct st as [available_slots last_end]. unfold sweep_step.
  destruct (event_instant "start" (ev_start event)) as [start|e] eqn:Hs;
    [|exists e; reflexivity].
  destruct Hday as [Hday|Hday].
  - rewrite (event_instant_date_only _ _ Hday) in Hs. discriminate.
  - rewrite (event_instant_date_only _ _ Hday). eexists. reflexivity.
Qed.

Lemma sweep_date_only min_duration events : forall st event,
  event ∈ events ->
  date_only (ev_start event) \/ date_only (ev_end event) ->
  exists e, sweep min_duration events st = Raise e.
Proof.
  induction events as [|first rest IH]; intros st event Hin Hday.
  - inversion Hin.
  - simpl. apply elem_of_cons in Hin as [<-|Hin].
    + destruct (sweep_step_date_only min_duration event st Hday) as [e ->].
      exists e. reflexivity.
    + destruct (sweep_step min_duration first st) as [st'|e];
        [|exists e; reflexivity].
      simpl. eapply IH; eauto.
Qed.

(** With a duration that is not positive the bound [last_end + td] never
    leaves the range of dates, so only the events can make the loop
    raise. *)
Lemma sweep_nonpositive_total min_duration events :
  parses_in_range lib ->
  min_duration <= 0 ->
  DT_MIN <= now + min_duration * US_PER_MIN ->
  Forall timed_event events ->
  forall available_slots last_end,
    now <= last_end <= DT_MAX ->
    exists available_slots' last_end',
      sweep min_duration events (available_slots, last_end)
      = Ok (available_slots', last_end')
      /\ now <= last_end' <= DT_MAX.
Proof.
  intros Hlib Hm Hlo Hevents.
  assert (Hmin : min_duration * US_PER_MIN <= 0)
    by (unfold US_PER_MIN, US_PER_SEC; lia).
  induction Hevents as [|event rest [[start Hs] [end_ He]] _ IH];
    intros acc last_end Hlast.
  - exists acc, last_end. split; [reflexivity | exact Hlast].
  - cbn [sweep].
    assert (Hstep : sweep_step min_duration event (acc, last_end)
                    = Ok (if start >? last_end + min_duration * US_PER_MIN
                          then acc ++ [make_slot last_end start] else acc,
                          Z.max last_end end_)).
    { apply sweep_step_Ok. exists start, end_.
      repeat split; try assumption; try lia.
      apply timedelta_minutes_small. unfold DT_MIN in *. lia. }
    rewrite Hstep. simpl. apply IH.
    pose proof (event_instant_range _ _ _ Hlib He). lia.
Qed.

End FindSlotsTotality.

(** ** The limit of twenty events *)

Lemma paginated_honours base : honours_maxResults (paginated base).
Proof.
  intros r items. simpl. unfold truncate_response.
  destruct (events_list base r) as [[all|]|e]; try discriminate.
  intros [= <-]. rewrite length_take. lia.
Qed.

Lemma paginated_agree base1 base2 r :
  agree_on_first 20 base1 base2 ->
  maxResults r = 20%nat ->
  events_list (paginated base1) r = events_list (paginated base2) r.
Proof. intros Hagree Hr. simpl. rewrite Hr. apply Hagree. Qed.

Section Twenty.
Context {lib : PyLib}.
Variable now : Z.

(** Whatever happens, the listing sends nothing or one list request. *)
Lemma list_events_tool_log store query :
  snd (run (list_events_tool store now query)) = []
  \/ exists time_min time_max,
       snd (run (list_events_tool store now query))
       = [ReqList (list_request time_min time_max)].
Proof.
  rewrite run_list_events_tool_any.
  destruct (dt_add now (7 * US_PER_DAY)) as [later|e]; [|left; reflexivity].
  destruct (query_bounds _ _ _) as [[time_min time_max]|e]; [|left; reflexivity].
  right. exists time_min, time_max. rewrite run_fetch_events. reflexivity.
Qed.

(** A returned list of entries comes from one answered request. *)
Lemma list_events_tool_Events store query out :
  fst (run (list_events_tool store now query)) = Ok (Events out) ->
  exists time_min time_max events_result,
    events_list store (list_request time_min time_max) = Ok events_result
    /\ dedup_loop (default [] events_result) [] ∅ = Ok out
    /\ snd (run (list_events_tool store now query))
       = [ReqList (list_request time_min time_max)].
Proof.
  rewrite run_list_events_tool_any.
  destruct (dt_add now (7 * US_PER_DAY)) as [later|e]; [|discriminate].
  destruct (query_bounds _ _ _) as [[time_min time_max]|e]; [|discriminate].
  rewrite run_fetch_events. simpl.
  destruct (events_list store _) as [events_result|e] eqn:Hlist; [|discriminate].
  destruct (dedup_loop _ _ _) as [[|entry rest]|e] eqn:Hloop; try discriminate.
  intros [= <-]. exists time_min, time_max, events_result. auto.
Qed.

Lemma fetch_events_agree base1 base2 time_min time_max :
  agree_on_first 20 base1 base2 ->
  run (fetch_events (paginated base1) time_min time_max)
  = run (fetch_events (paginated base2) time_min time_max).
Proof.
  intros Hagree. rewrite !run_fetch_events.
  rewrite (paginated_agree base1 base2 _ Hagree) by reflexivity. reflexivity.
Qed.

End Twenty.

(** ** The reference instance *)

Lemma Ref_lib_parses_in_range : parses_in_range Ref.lib.
Proof.
  intros s t. change (@fromisoformat_utc Ref.lib s) with (Ref.fromisoformat_utc s).
  unfold Ref.fromisoformat_utc.
  destruct (Ref.parse_fields_19 _) as [[wall tz]|]; [|discriminate].
  destruct (Ref.parse_offset tz) as [off|]; [|discriminate].
  destruct (in_dt_range (wall - off)) eqn:Hrange; [|discriminate].
  intros [= <-]. unfold in_dt_range in Hrange.
  apply andb_true_iff in Hrange as [Hlo Hhi].
  apply Z.leb_le in Hlo, Hhi. lia.
Qed.

Example morning_is_nine : Ref.isoformat Demo.morning = "2026-11-04T09:00:00+00:00"%string.
Proof. vm_compute. reflexivity. Qed.

(** * The claims *)

(** ** C1: the gap test of the sweep *)

(** C1 (the code departs from the claim).  The claim has a gap emitted as
    soon as it is at least [min_duration] long; the tool's test is
    [start > last_end + timedelta(minutes=min_duration)], which is strict.
    At 09:00 with one event from 09:30 to 10:00 and [min_duration = 30] the
    gap before the event lasts thirty minutes exactly and is not returned:
    the only slot is the trailing one. *)
Theorem C1_exact_gap_is_dropped :
  Ref.fromisoformat_utc "2026-11-04T09:30:00+00:00"
  = Ok (Demo.morning + 30 * US_PER_MIN)
  /\ run (find_available_slots_tool (lib:=Ref.lib)
            (Demo.serving [Demo.standup]) Demo.morning 30)
     = (Ok [ {| slot_start := "2026-11-04T10:00:00+00:00";
                slot_end := "2026-11-04T23:59:59+00:00";
                duration_minutes := 839 |} ],
        [ReqList (slots_request (lib:=Ref.lib) Demo.morning)]).
Proof. split; vm_compute; reflexivity. Qed.

(** ** C2: the checks of create_event_tool *)

(** C2 (amended).  When both times parse, [create_event_tool] checks the
    interval first and the clock second, and in both failures returns
    before any request is sent (the log stays empty): an input with
    [end <= start] gets "End time must be after start time", and an input
    with [start < end] and [start < now] gets "Cannot create events in the
    past". *)
Theorem C2_create_event_preconditions {lib : PyLib} (store : CalendarStore)
    (now : Z) (summary start_time end_time : string) (start end_ : Z) :
  fromisoformat_utc start_time = Ok start ->
  fromisoformat_utc end_time = Ok end_ ->
  (end_ <= start ->
   run (create_event_tool store now summary start_time end_time)
   = (Ok (CreateError END_BEFORE_START), []))
  /\ (start < end_ -> start < now ->
      run (create_event_tool store now summary start_time end_time)
      = (Ok (CreateError IN_THE_PAST), [])).
Proof.
  intros Hs He. split.
  - intros Hle. eapply create_event_end_before_start; eassumption.
  - intros Hlt Hpast. eapply create_event_in_the_past; eassumption.
Qed.

Lemma C2_create_event_preconditions_witness :
  run (create_event_tool (lib:=Ref.lib) (Demo.serving []) Demo.morning "Sync"
         "2099-01-01T10:00:00Z" "2099-01-01T09:00:00Z")
  = (Ok (CreateError END_BEFORE_START), [])
  /\ run (create_event_tool (lib:=Ref.lib) (Demo.serving []) Demo.morning "Sync"
            "2020-01-01T10:00:00Z" "2020-01-01T11:00:00Z")
     = (Ok (CreateError IN_THE_PAST), []).
Proof.
  split.
  - apply (C2_create_event_preconditions (lib:=Ref.lib) (Demo.serving [])
             Demo.morning "Sync" "2099-01-01T10:00:00Z" "2099-01-01T09:00:00Z"
             66206541600000000 66206538000000000);
      [vm_compute; reflexivity | vm_compute; reflexivity | lia].
  - apply (C2_create_event_preconditions (lib:=Ref.lib) (Demo.serving [])
             Demo.morning "Sync" "2020-01-01T10:00:00Z" "2020-01-01T11:00:00Z"
             63713469600000000 63713473200000000);
      [vm_compute; reflexivity | vm_compute; reflexivity | lia
      | unfold Demo.morning; lia].
Defined.

(** The claim as stated fails where both preconditions are violated: a
    start in 2020, before the clock, with an end one hour earlier, is
    refused for its interval and not as a past event. *)
Lemma C2_past_start_with_bad_interval :
  Ref.fromisoformat_utc "2020-01-01T10:00:00Z" = Ok 63713469600000000
  /\ 63713469600000000 < Demo.morning
  /\ run (create_event_tool (lib:=Ref.lib) (Demo.serving []) Demo.morning "Sync"
            "2020-01-01T10:00:00Z" "2020-01-01T09:00:00Z")
     = (Ok (CreateError END_BEFORE_START), [])
  /\ CreateError END_BEFORE_START <> CreateError IN_THE_PAST.
Proof.
  split; [vm_compute; reflexivity |].
  split; [unfold Demo.morning; lia |].
  split; [vm_compute; reflexivity | discriminate].
Qed.

(** ** C3: deduplication by (start, summary) *)

(** C3.  Whenever [list_events_tool] returns a list of entries, the list
    comes from the answer of the one request it sent, and for
    every event of that answer - so for each of several events that share
    a start and a summary - the output holds exactly one entry with that
    key, which is the entry of the first event with that key in backend
    order. *)
Theorem C3_list_events_keeps_first_of_each_key {lib : PyLib}
    (store : CalendarStore) (now : Z) (query : option string)
    (out : list OutEvent) :
  fst (run (list_events_tool store now query)) = Ok (Events out) ->
  exists time_min time_max events_result,
    snd (run (list_events_tool store now query))
    = [ReqList (list_request time_min time_max)]
    /\ events_list store (list_request time_min time_max) = Ok events_result
    /\ forall event, event ∈ default [] events_result ->
         exists k first entry,
           event_key event = Ok k
           /\ first_with_key k (default [] events_result) = Some first
           /\ format_event first = Ok entry
           /\ entries_with_key k out = [entry].
Proof.
  intros Hout.
  apply list_events_tool_Events in Hout
    as (time_min & time_max & events_result & Hlist & Hloop & Hlog).
  exists time_min, time_max, events_result.
  split; [exact Hlog |]. split; [exact Hlist |].
  intros event Hin.
  destruct (dedup_loop_keys _ _ _ _ Hloop event Hin) as [k Hk].
  assert (Hinv : forall k' : option string * string,
             k' ∈ (∅ : gset (option string * string))
             <-> k' ∈ map out_key ([] : list OutEvent)).
  { intros k'. simpl. rewrite elem_of_nil. split; [set_solver | tauto]. }
  destruct (dedup_loop_entries _ _ _ _ Hloop Hinv k) as [_ Hfresh].
  specialize (Hfresh (not_elem_of_empty k)).
  destruct (first_with_key k (default [] events_result)) as [first|] eqn:Hfirst.
  - destruct Hfresh as (entry & Hentry & Hone).
    exists k, first, entry. auto.
  - exfalso. unfold first_with_key in Hfirst.
    apply list_elem_of_In in Hin.
    pose proof (find_none _ _ Hfirst event Hin) as Hno.
    unfold has_key in Hno. rewrite Hk in Hno.
    rewrite bool_decide_eq_false in Hno. apply Hno. reflexivity.
Qed.

Lemma C3_list_events_keeps_first_of_each_key_witness :
  exists time_min time_max events_result,
    snd (run (list_events_tool (lib:=Ref.lib)
                (Demo.serving [Demo.standup; Demo.review; Demo.standup])
                Demo.morning None))
    = [ReqList (list_request time_min time_max)]
    /\ events_list (Demo.serving [Demo.standup; Demo.review; Demo.standup])
         (list_request time_min time_max) = Ok events_result
    /\ forall event, event ∈ default [] events_result ->
         exists k first entry,
           event_key event = Ok k
           /\ first_with_key k (default [] events_result) = Some first
           /\ format_event first = Ok entry
           /\ entries_with_key k
                [ {| out_start := Some "2026-11-04T09:30:00+00:00"%string;
                     out_summary := "Standup";
                     out_end := Some "2026-11-04T10:00:00+00:00"%string |};
                  {| out_start := Some "2026-11-04T11:00:00+00:00"%string;
                     out_summary := "Review";
                     out_end := Some "2026-11-04T12:00:00+00:00"%string |} ]
              = [entry].
Proof.
  apply (C3_list_events_keeps_first_of_each_key (lib:=Ref.lib)
           (Demo.serving [Demo.standup; Demo.review; Demo.standup])
           Demo.morning None).
  vm_compute. reflexivity.
Defined.

(** ** C8: every returned slot is long enough *)

(** C8.  Every slot of a list returned by [find_available_slots_tool] runs
    between two instants at least [min_duration] minutes apart, and its
    [duration_minutes] is at least [min_duration]. *)
Theorem C8_slots_long_enough {lib : PyLib} (store : CalendarStore) (now : Z)
    (min_duration : Z) (slots : list Slot) :
  fst (run (find_available_slots_tool store now min_duration)) = Ok slots ->
  Forall (long_enough min_duration) slots.
Proof.
  rewrite run_find_available_slots_tool. simpl. intros Hrun.
  apply bind_Ok in Hrun as (response & _ & Hrun).
  apply bind_Ok in Hrun as ([available_slots last_end] & Hsweep & Htrail).
  pose proof (sweep_long_enough _ _ _ _ _ Hsweep (Forall_nil_2 _)) as Hslots.
  simpl in Hslots.
  apply trailing_Ok in Htrail as (_ & _ & ->).
  destruct (Z.gtb_spec (end_of_day now) (last_end + min_duration * US_PER_MIN))
    as [Hgt|_]; [|exact Hslots].
  apply Forall_app. split; [exact Hslots |].
  apply Forall_cons. split; [|apply Forall_nil_2].
  apply make_slot_long_enough. lia.
Qed.

Lemma C8_slots_long_enough_witness :
  Forall (long_enough (lib:=Ref.lib) 30)
    [ {| slot_start := "2026-11-04T10:00:00+00:00";
         slot_end := "2026-11-04T11:00:00+00:00";
         duration_minutes := 60 |};
      {| slot_start := "2026-11-04T12:00:00+00:00";
         slot_end := "2026-11-04T23:59:59+00:00";
         duration_minutes := 719 |} ].
Proof.
  apply (C8_slots_long_enough (lib:=Ref.lib)
           (Demo.serving [Demo.standup; Demo.review]) Demo.morning 30).
  vm_compute. reflexivity.
Defined.

(** ** C4: an empty answer *)

(** C4 (amended).  When the bounds are read without error and the backend
    answers the request with no event, [list_events_tool] returns neither
    an error nor an empty list but the text
    "No events found between <time_min> and <time_max>". *)
Theorem C4_no_events_message {lib : PyLib} (store : CalendarStore) (now : Z)
    (query : option string) (time_min time_max : string)
    (events_result : option (list RawEvent)) :
  DT_MIN <= now + 7 * US_PER_DAY <= DT_MAX ->
  query_bounds query (isoformat now) (isoformat (now + 7 * US_PER_DAY))
  = Ok (time_min, time_max) ->
  events_list store (list_request time_min time_max) = Ok events_result ->
  default [] events_result = [] ->
  run (list_events_tool store now query)
  = (Ok (Text (no_events_message time_min time_max)),
     [ReqList (list_request time_min time_max)]).
Proof.
  intros Hclock Hbounds Hlist Hnone.
  rewrite (run_list_events_tool store now query Hclock), Hbounds.
  rewrite run_fetch_events, Hlist, Hnone. reflexivity.
Qed.

Lemma C4_no_events_message_witness :
  run (list_events_tool (lib:=Ref.lib) (Demo.serving []) Demo.morning None)
  = (Ok (Text (no_events_message "2026-11-04T09:00:00+00:00"
                                 "2026-11-11T09:00:00+00:00")),
     [ReqList (list_request "2026-11-04T09:00:00+00:00"
                            "2026-11-11T09:00:00+00:00")]).
Proof.
  apply (C4_no_events_message (lib:=Ref.lib) (Demo.serving []) Demo.morning None
           "2026-11-04T09:00:00+00:00" "2026-11-11T09:00:00+00:00" (Some [])).
  - unfold Demo.morning, DT_MIN, DT_MAX, US_PER_DAY, US_PER_SEC. lia.
  - vm_compute. reflexivity.
  - reflexivity.
  - reflexivity.
Defined.

(** The claim as stated fails on an empty calendar: the value returned is
    a string, not the empty list of events. *)
Lemma C4_empty_calendar_returns_text :
  fst (run (list_events_tool (lib:=Ref.lib) (Demo.serving []) Demo.morning None))
  = Ok (Text "No events found between 2026-11-04T09:00:00+00:00 and 2026-11-11T09:00:00+00:00")
  /\ fst (run (list_events_tool (lib:=Ref.lib) (Demo.serving []) Demo.morning None))
     <> Ok (Events []).
Proof.
  assert (H : fst (run (list_events_tool (lib:=Ref.lib) (Demo.serving [])
                          Demo.morning None))
              = Ok (Text "No events found between 2026-11-04T09:00:00+00:00 and 2026-11-11T09:00:00+00:00"))
    by (vm_compute; reflexivity).
  split; [exact H |]. rewrite H. discriminate.
Qed.

(** ** C5: bounds in the wrong order *)

(** C5 (amended).  [list_events_tool] never compares its two bounds.  Once
    they are read, whatever their order, it sends one list request that
    carries both unchanged, and returns what the fetch gives: the entries,
    the text "No events found ...", or the text "Error fetching events:
    ..." when the backend or an event raises. *)
Theorem C5_bounds_are_forwarded {lib : PyLib} (store : CalendarStore) (now : Z)
    (query : option string) (time_min time_max : string) :
  DT_MIN <= now + 7 * US_PER_DAY <= DT_MAX ->
  query_bounds query (isoformat now) (isoformat (now + 7 * US_PER_DAY))
  = Ok (time_min, time_max) ->
  snd (run (list_events_tool store now query))
  = [ReqList (list_request time_min time_max)]
  /\ exists result,
       fst (run (list_events_tool store now query)) = Ok result
       /\ ((exists out, out <> [] /\ result = Events out)
           \/ result = Text (no_events_message time_min time_max)
           \/ exists e, result = Text ("Error fetching events: " +:+ exn_str e)).
Proof.
  intros Hclock Hbounds.
  rewrite (run_list_events_tool store now query Hclock), Hbounds.
  rewrite run_fetch_events. simpl. split; [reflexivity |].
  eexists. split; [reflexivity |].
  destruct (events_list store _) as [events_result|e]; [|eauto].
  destruct (dedup_loop _ _ _) as [[|entry out]|e]; [eauto | | eauto].
  left. exists (entry :: out). split; [discriminate | reflexivity].
Qed.

Lemma C5_bounds_are_forwarded_witness :
  snd (run (list_events_tool (lib:=Ref.lib) (Demo.serving [Demo.standup])
              Demo.morning
              (Some "start_time=2026-11-05T00:00:00Z&end_time=2026-11-04T00:00:00Z"%string)))
  = [ReqList (list_request "2026-11-05T00:00:00Z" "2026-11-04T00:00:00Z")]
  /\ exists result,
       fst (run (list_events_tool (lib:=Ref.lib) (Demo.serving [Demo.standup])
                   Demo.morning
                   (Some "start_time=2026-11-05T00:00:00Z&end_time=2026-11-04T00:00:00Z"%string)))
       = Ok result
       /\ ((exists out, out <> [] /\ result = Events out)
           \/ result = Text (no_events_message "2026-11-05T00:00:00Z"
                                               "2026-11-04T00:00:00Z")
           \/ exists e, result = Text ("Error fetching events: " +:+ exn_str e)).
Proof.
  apply (C5_bounds_are_forwarded (lib:=Ref.lib) (Demo.serving [Demo.standup])
           Demo.morning).
  - unfold Demo.morning, DT_MIN, DT_MAX, US_PER_DAY, US_PER_SEC. lia.
  - vm_compute. reflexivity.
Defined.

(** The claim as stated fails on a query whose start is a day after its
    end: the request is sent with both bounds, and the events the backend
    answers with are returned. *)
Lemma C5_reversed_range_is_sent :
  Ref.fromisoformat_utc "2026-11-05T00:00:00Z" = Ok 63929433600000000
  /\ Ref.fromisoformat_utc "2026-11-04T00:00:00Z" = Ok 63929347200000000
  /\ 63929433600000000 >= 63929347200000000
  /\ run (list_events_tool (lib:=Ref.lib) (Demo.serving [Demo.standup])
            Demo.morning
            (Some "start_time=2026-11-05T00:00:00Z&end_time=2026-11-04T00:00:00Z"%string))
     = (Ok (Events [ {| out_start := Some "2026-11-04T09:30:00+00:00"%string;
                        out_summary := "Standup";
                        out_end := Some "2026-11-04T10:00:00+00:00"%string |} ]),
        [ReqList {| timeMin := "2026-11-05T00:00:00Z";
                    timeMax := Some "2026-11-04T00:00:00Z"%string;
                    maxResults := 20;
                    singleEvents := true;
                    orderBy := "startTime" |}]).
Proof.
  split; [vm_compute; reflexivity |].
  split; [vm_compute; reflexivity |].
  split; [lia |].
  vm_compute. reflexivity.
Qed.

(** ** C7: a query that is not of the expected form *)

Lemma params_get_missing key params default :
  key ∉ map fst params -> params_get key params default = default.
Proof.
  unfold params_get. induction params as [|[k v] rest IH]; intros Hkey.
  - reflexivity.
  - simpl in *. apply not_elem_of_cons in Hkey as [Hne Hkey].
    destruct (String.eqb_spec k key) as [->|_]; [contradiction |].
    apply IH, Hkey.
Qed.

(** C7 (amended).  With a clock that leaves room for the default week,
    [list_events_tool] never raises, but it answers "Invalid query format"
    only when reading the query raises.  A string without ['='] is treated
    as no query at all, and a string with ['='] gets, for each of
    [start_time] and [end_time] it does not define, the default bound: in
    both cases the tool goes on to the backend with default bounds. *)
Theorem C7_query_fallbacks {lib : PyLib} (store : CalendarStore) (now : Z) :
  DT_MIN <= now + 7 * US_PER_DAY <= DT_MAX ->
  let time_min := isoformat now in
  let time_max := isoformat (now + 7 * US_PER_DAY) in
  (forall query,
     run (list_events_tool store now query)
     = match query_bounds query time_min time_max with
       | Raise _ => (Ok (Text INVALID_QUERY), [])
       | Ok (time_min', time_max') => run (fetch_events store time_min' time_max')
       end)
  /\ (forall query, exists result log,
        run (list_events_tool store now query) = (Ok result, log))
  /\ (forall q, has_equals q = false ->
        run (list_events_tool store now (Some q))
        = run (fetch_events store time_min time_max))
  /\ (forall q d params,
        q <> ""%string -> has_equals q = true ->
        parse_qs q = Ok d -> first_values d = Ok params ->
        run (list_events_tool store now (Some q))
        = run (fetch_events store (params_get "start_time" params time_min)
                                  (params_get "end_time" params time_max)))
  /\ (forall key params default,
        key ∉ map fst params -> params_get key params default = default).
Proof.
  intros Hclock time_min time_max.
  pose proof (run_list_events_tool store now) as Hrun.
  split; [intros query; apply Hrun, Hclock |].
  split.
  { intros query. rewrite (Hrun query Hclock).
    destruct (query_bounds _ _ _) as [[time_min' time_max']|e]; [|eauto].
    rewrite run_fetch_events. eauto. }
  split.
  { intros q Hq. rewrite (Hrun _ Hclock).
    rewrite (query_bounds_no_equals q _ _ Hq). reflexivity. }
  split.
  { intros q d params Hne Heq Hd Hparams. rewrite (Hrun _ Hclock).
    rewrite (query_bounds_parsed q d params _ _ Hne Heq Hd Hparams). reflexivity. }
  apply params_get_missing.
Qed.

Lemma C7_query_fallbacks_witness :
  run (list_events_tool (lib:=Ref.lib) (Demo.serving [Demo.standup]) Demo.morning
         (Some "tomorrow"%string))
  = run (fetch_events (Demo.serving [Demo.standup])
           "2026-11-04T09:00:00+00:00" "2026-11-11T09:00:00+00:00")
  /\ run (list_events_tool (lib:=Ref.lib) (Demo.serving [Demo.standup]) Demo.morning
            (Some "when=tomorrow"%string))
     = run (fetch_events (Demo.serving [Demo.standup])
              "2026-11-04T09:00:00+00:00" "2026-11-11T09:00:00+00:00").
Proof.
  assert (Hclock : DT_MIN <= Demo.morning + 7 * US_PER_DAY <= DT_MAX)
    by (unfold Demo.morning, DT_MIN, DT_MAX, US_PER_DAY, US_PER_SEC; lia).
  destruct (C7_query_fallbacks (lib:=Ref.lib) (Demo.serving [Demo.standup])
              Demo.morning Hclock) as (_ & _ & Hplain & Hparsed & Hmissing).
  split.
  - rewrite (Hplain "tomorrow"%string eq_refl). vm_compute. reflexivity.
  - rewrite (Hparsed "when=tomorrow"%string
               [("when"%string, ["tomorrow"%string])]
               [("when"%string, "tomorrow"%string)]);
      [| discriminate | reflexivity | vm_compute; reflexivity | reflexivity].
    rewrite !Hmissing; [vm_compute; reflexivity | |].
    + simpl. rewrite list_elem_of_singleton. discriminate.
    + simpl. rewrite list_elem_of_singleton. discriminate.
Defined.

(** The claim as stated fails on the query "tomorrow": no error is
    reported, the request goes out with the default bounds (now and a week
    later) and the events are returned. *)
Lemma C7_text_without_equals_uses_defaults :
  run (list_events_tool (lib:=Ref.lib) (Demo.serving [Demo.standup]) Demo.morning
         (Some "tomorrow"%string))
  = (Ok (Events [ {| out_start := Some "2026-11-04T09:30:00+00:00"%string;
                     out_summary := "Standup";
                     out_end := Some "2026-11-04T10:00:00+00:00"%string |} ]),
     [ReqList {| timeMin := "2026-11-04T09:00:00+00:00";
                 timeMax := Some "2026-11-11T09:00:00+00:00"%string;
                 maxResults := 20;
                 singleEvents := true;
                 orderBy := "startTime" |}])
  /\ run (list_events_tool (lib:=Ref.lib) (Demo.serving [Demo.standup]) Demo.morning
            (Some "tomorrow"%string))
     = run (list_events_tool (lib:=Ref.lib) (Demo.serving [Demo.standup])
              Demo.morning None).
Proof. split; vm_compute; reflexivity. Qed.

(** ** C6: a duration that is not positive *)

(** C6 (amended).  [find_available_slots_tool] does not validate
    [min_duration].  For every [min_duration <= 0] small enough that
    [now + timedelta(minutes=min_duration)] is still a date, and every
    answer of the backend whose events all carry a ['dateTime'] that
    parses, the tool returns a list of slots. *)
Theorem C6_nonpositive_duration_returns_slots {lib : PyLib}
    (store : CalendarStore) (now : Z) (min_duration : Z)
    (events_result : option (list RawEvent)) :
  parses_in_range lib ->
  DT_MIN <= now <= DT_MAX ->
  min_duration <= 0 ->
  DT_MIN <= now + min_duration * US_PER_MIN ->
  events_list store (slots_request now) = Ok events_result ->
  Forall timed_event (default [] events_result) ->
  exists slots,
    run (find_available_slots_tool store now min_duration)
    = (Ok slots, [ReqList (slots_request now)]).
Proof.
  intros Hlib Hnow Hm Hlo Hlist Hevents.
  rewrite run_find_available_slots_tool, Hlist. simpl.
  destruct (sweep_nonpositive_total now min_duration _ Hlib Hm Hlo Hevents
              [] now ltac:(lia)) as (available_slots & last_end & -> & Hlast).
  simpl.
  assert (Hmin : min_duration * US_PER_MIN <= 0)
    by (unfold US_PER_MIN, US_PER_SEC; lia).
  eexists. f_equal. apply trailing_Ok.
  split; [apply timedelta_minutes_small; unfold DT_MIN in *; lia |].
  split; [lia | reflexivity].
Qed.

Lemma C6_nonpositive_duration_returns_slots_witness :
  exists slots,
    run (find_available_slots_tool (lib:=Ref.lib) (Demo.serving [Demo.standup])
           Demo.morning (-30))
    = (Ok slots, [ReqList (slots_request (lib:=Ref.lib) Demo.morning)]).
Proof.
  apply (C6_nonpositive_duration_returns_slots (lib:=Ref.lib)
           (Demo.serving [Demo.standup]) Demo.morning (-30)
           (Some [Demo.standup])).
  - exact Ref_lib_parses_in_range.
  - unfold Demo.morning, DT_MIN, DT_MAX, US_PER_DAY, US_PER_SEC. lia.
  - lia.
  - unfold Demo.morning, DT_MIN, US_PER_MIN, US_PER_SEC. lia.
  - reflexivity.
  - apply Forall_cons. split; [|apply Forall_nil_2].
    split; eexists; vm_compute; reflexivity.
Defined.

(** The claim as stated fails for [min_duration = 0] (and for -30) on an
    empty calendar at 09:00: the tool returns the slot that runs to the
    end of the day. *)
Lemma C6_zero_duration_returns_slots :
  run (find_available_slots_tool (lib:=Ref.lib) (Demo.serving []) Demo.morning 0)
  = (Ok [ {| slot_start := "2026-11-04T09:00:00+00:00";
             slot_end := "2026-11-04T23:59:59+00:00";
             duration_minutes := 899 |} ],
     [ReqList (slots_request (lib:=Ref.lib) Demo.morning)])
  /\ run (find_available_slots_tool (lib:=Ref.lib) (Demo.serving [])
            Demo.morning (-30))
     = (Ok [ {| slot_start := "2026-11-04T09:00:00+00:00";
                slot_end := "2026-11-04T23:59:59+00:00";
                duration_minutes := 899 |} ],
        [ReqList (slots_request (lib:=Ref.lib) Demo.morning)]).
Proof. split; vm_compute; reflexivity. Qed.

(** ** C9: all-day events *)

(** C9.  If the answer of the backend holds an event whose start or end
    has a ['date'] and no ['dateTime'], [find_available_slots_tool] raises
    instead of returning slots - a [KeyError] for ['dateTime'] when the
    event is the first of the answer and the field is missing at its
    start - whereas the fetch of [list_events_tool], given such an event,
    returns its entry with the two dates. *)
Theorem C9_all_day_event_raises {lib : PyLib} (store : CalendarStore) (now : Z)
    (min_duration : Z) (items : list RawEvent) (event : RawEvent) :
  events_list store (slots_request now) = Ok (Some items) ->
  event ∈ items ->
  date_only (ev_start event) \/ date_only (ev_end event) ->
  (exists e, run (find_available_slots_tool store now min_duration)
             = (Raise e, [ReqList (slots_request now)]))
  /\ (forall rest, items = event :: rest -> date_only (ev_start event) ->
        run (find_available_slots_tool store now min_duration)
        = (Raise (KeyError "dateTime"), [ReqList (slots_request now)]))
  /\ (forall d1 d2 summary time_min time_max,
        event = {| ev_start := Some {| dateTime := None; date := Some d1 |};
                   ev_end := Some {| dateTime := None; date := Some d2 |};
                   ev_summary := Some summary |} ->
        events_list store (list_request time_min time_max) = Ok (Some [event]) ->
        run (fetch_events store time_min time_max)
        = (Ok (Events [ {| out_start := Some d1;
                           out_summary := summary;
                           out_end := Some d2 |} ]),
           [ReqList (list_request time_min time_max)])).
Proof.
  intros Hlist Hin Hday. split; [|split].
  - rewrite run_find_available_slots_tool, Hlist. simpl.
    destruct (sweep_date_only min_duration items ([], now) event Hin Hday)
      as [e ->].
    exists e. reflexivity.
  - intros rest -> Hstart.
    rewrite run_find_available_slots_tool, Hlist. simpl.
    unfold sweep_step. rewrite (event_instant_date_only _ _ Hstart). reflexivity.
  - intros d1 d2 summary time_min time_max -> Hfetch.
    rewrite run_fetch_events, Hfetch. reflexivity.
Qed.

Lemma C9_all_day_event_raises_witness :
  run (find_available_slots_tool (lib:=Ref.lib) (Demo.serving [Demo.holiday])
         Demo.morning 30)
  = (Raise (KeyError "dateTime"), [ReqList (slots_request (lib:=Ref.lib) Demo.morning)])
  /\ run (fetch_events (Demo.serving [Demo.holiday])
            "2026-11-04T09:00:00+00:00" "2026-11-11T09:00:00+00:00")
     = (Ok (Events [ {| out_start := Some "2026-11-05"%string;
                        out_summary := "Holiday";
                        out_end := Some "2026-11-06"%string |} ]),
        [ReqList (list_request "2026-11-04T09:00:00+00:00"
                               "2026-11-11T09:00:00+00:00")]).
Proof.
  assert (Hday : date_only (ev_start Demo.holiday))
    by (exists "2026-11-05"%string; reflexivity).
  destruct (C9_all_day_event_raises (lib:=Ref.lib) (Demo.serving [Demo.holiday])
              Demo.morning 30 [Demo.holiday] Demo.holiday eq_refl
              ltac:(apply list_elem_of_singleton; reflexivity) (or_introl Hday))
    as (_ & Hfirst & Hlisted).
  split.
  - exact (Hfirst [] eq_refl Hday).
  - exact (Hlisted "2026-11-05"%string "2026-11-06"%string "Holiday"%string
             _ _ eq_refl eq_refl).
Defined.

(** ** C10: only the first twenty events count *)

(** C10.  Every request the two read-only tools send asks for at most
    twenty events ([maxResults = 20]).  Hence, with a backend that honours
    [maxResults], a list returned by [list_events_tool] has at most twenty
    entries; and with a backend that cuts its answer after [maxResults]
    events, two calendars that differ only after their first twenty events
    give the same result in both tools: the later events are ignored by
    the deduplication and by the sweep. *)
Theorem C10_first_twenty_only {lib : PyLib} (now : Z) (query : option string)
    (min_duration : Z) :
  (forall store r,
     r ∈ snd (run (list_events_tool store now query))
         ++ snd (run (find_available_slots_tool store now min_duration)) ->
     exists lr, r = ReqList lr /\ maxResults lr = 20%nat)
  /\ (forall store out,
        honours_maxResults store ->
        fst (run (list_events_tool store now query)) = Ok (Events out) ->
        (length out <= 20)%nat)
  /\ (forall base1 base2,
        agree_on_first 20 base1 base2 ->
        run (list_events_tool (paginated base1) now query)
        = run (list_events_tool (paginated base2) now query)
        /\ run (find_available_slots_tool (paginated base1) now min_duration)
           = run (find_available_slots_tool (paginated base2) now min_duration)).
Proof.
  split; [|split].
  - intros store r Hr. apply elem_of_app in Hr as [Hr|Hr].
    + destruct (list_events_tool_log now store query)
        as [Hlog|(time_min & time_max & Hlog)]; rewrite Hlog in Hr.
      * inversion Hr.
      * apply list_elem_of_singleton in Hr as ->. eauto.
    + rewrite run_find_available_slots_tool in Hr. simpl in Hr.
      apply list_elem_of_singleton in Hr as ->. eauto.
  - intros store out Hstore Hout.
    apply list_events_tool_Events in Hout
      as (time_min & time_max & events_result & Hlist & Hloop & _).
    apply dedup_loop_length in Hloop. simpl in Hloop.
    destruct events_result as [items|]; simpl in Hloop; [|lia].
    apply Hstore in Hlist. simpl in Hlist. lia.
  - intros base1 base2 Hagree. split.
    + rewrite !run_list_events_tool_any.
      destruct (dt_add now (7 * US_PER_DAY)) as [later|e]; [|reflexivity].
      destruct (query_bounds _ _ _) as [[time_min time_max]|e]; [|reflexivity].
      apply fetch_events_agree, Hagree.
    + rewrite !run_find_available_slots_tool.
      rewrite (paginated_agree base1 base2 _ Hagree) by reflexivity.
      reflexivity.
Qed.

Lemma C10_first_twenty_only_witness :
  (exists lr,
     ReqList (list_request "2026-11-04T09:00:00+00:00" "2026-11-11T09:00:00+00:00")
     = ReqList lr /\ maxResults lr = 20%nat)
  /\ (length [ {| out_start := Some "2026-11-04T11:00:00+00:00"%string;
                  out_summary := "Review"%string;
                  out_end := Some "2026-11-04T12:00:00+00:00"%string |} ]
      <= 20)%nat
  /\ run (list_events_tool (lib:=Ref.lib) (paginated Crowded.with_standup)
            Demo.morning None)
     = run (list_events_tool (lib:=Ref.lib) (paginated Crowded.with_holiday)
              Demo.morning None)
  /\ run (find_available_slots_tool (lib:=Ref.lib) (paginated Crowded.with_standup)
            Demo.morning 30)
     = run (find_available_slots_tool (lib:=Ref.lib) (paginated Crowded.with_holiday)
              Demo.morning 30).
Proof.
  destruct (C10_first_twenty_only (lib:=Ref.lib) Demo.morning None 30)
    as (Hrequests & Hlength & Hsame).
  split; [|split].
  - apply (Hrequests (paginated Crowded.with_standup)).
    apply elem_of_app. left. vm_compute. apply list_elem_of_singleton. reflexivity.
  - apply (Hlength (paginated Crowded.with_standup)).
    + apply paginated_honours.
    + vm_compute. reflexivity.
  - apply Hsame. intros r. reflexivity.
Defined.

(** * Further properties of the tools *)

(** ** create_event_tool: the request and the answer *)

Section CreateEventMore.
Context {lib : PyLib}.
Variables (store : CalendarStore) (now : Z).

Lemma run_create_event_valid summary start_time end_time start end_ :
  fromisoformat_utc start_time = Ok start ->
  fromisoformat_utc end_time = Ok end_ ->
  now <= start -> start < end_ ->
  let event := {| body_summary := summary;
                  body_start := isoformat start;
                  body_end := isoformat end_ |} in
  run (create_event_tool store now summary start_time end_time)
  = (Ok match events_insert store event with
        | Ok created => CreateSuccess (htmlLink created) (created_id created)
        | Raise e => CreateError (exn_str e)
        end,
     [ReqInsert event]).
Proof.
  intros Hs He Hfut Hlt event. unfold create_event_tool. unfold_tool.
  rewrite Hs, He.
  destruct (Z.geb_spec start end_) as [Hge|_]; [lia |].
  destruct (Z.ltb_spec start now) as [Hl|_]; [lia |].
  simpl. fold event. destruct (events_insert store event); reflexivity.
Qed.


End CreateEventMore.

(** X1.  When both times parse, the start is not before the clock (a start
    equal to [now] passes) and the end is after the start, the tool sends
    exactly one insert request, whose body carries the summary unchanged
    and the two instants rendered in UTC, and a successful answer of the
    backend is returned as the link and the id of the created event. *)
Theorem create_event_success {lib : PyLib} (store : CalendarStore) (now : Z)
    (summary start_time end_time : string) (start end_ : Z) (created : Created) :
  fromisoformat_utc start_time = Ok start ->
  fromisoformat_utc end_time = Ok end_ ->
  now <= start -> start < end_ ->
  events_insert store {| body_summary := summary;
                         body_start := isoformat start;
                         body_end := isoformat end_ |} = Ok created ->
  run (create_event_tool store now summary start_time end_time)
  = (Ok (CreateSuccess (htmlLink created) (created_id created)),
     [ReqInsert {| body_summary := summary;
                   body_start := isoformat start;
                   body_end := isoformat end_ |}]).
Proof.
  intros Hs He Hfut Hlt Hins.
  rewrite (run_create_event_valid store now summary _ _ _ _ Hs He Hfut Hlt).
  simpl. rewrite Hins. reflexivity.
Qed.

Lemma create_event_success_witness :
  run (create_event_tool (lib:=Ref.lib) (Demo.serving []) Demo.morning "Sync"
         "2026-11-04T09:00:00Z" "2026-11-04T15:00:00+05:30")
  = (Ok (CreateSuccess (Some "https://calendar.example/e1"%string)
                       (Some "e1"%string)),
     [ReqInsert {| body_summary := "Sync";
                   body_start := "2026-11-04T09:00:00+00:00";
                   body_end := "2026-11-04T09:30:00+00:00" |}]).
Proof.
  rewrite (create_event_success (lib:=Ref.lib) (Demo.serving []) Demo.morning
             "Sync" "2026-11-04T09:00:00Z" "2026-11-04T15:00:00+05:30"
             Demo.morning (Demo.morning + 30 * US_PER_MIN)
             {| htmlLink := Some "https://calendar.example/e1"%string;
                created_id := Some "e1"%string |}).
  - vm_compute. reflexivity.
  - vm_compute. reflexivity.
  - vm_compute. reflexivity.
  - lia.
  - unfold US_PER_MIN, US_PER_SEC. lia.
  - reflexivity.
Defined.

(** X2.  When the times are valid and the backend refuses the insert, the
    tool does not raise and does not try again: exactly one insert request
    was sent, and the exception comes back as [{"error": str(e)}]. *)
Theorem create_event_backend_failure {lib : PyLib} (store : CalendarStore)
    (now : Z) (summary start_time end_time : string) (start end_ : Z) (e : Exn) :
  fromisoformat_utc start_time = Ok start ->
  fromisoformat_utc end_time = Ok end_ ->
  now <= start -> start < end_ ->
  events_insert store {| body_summary := summary;
                         body_start := isoformat start;
                         body_end := isoformat end_ |} = Raise e ->
  run (create_event_tool store now summary start_time end_time)
  = (Ok (CreateError (exn_str e)),
     [ReqInsert {| body_summary := summary;
                   body_start := isoformat start;
                   body_end := isoformat end_ |}]).
Proof.
  intros Hs He Hfut Hlt Hins.
  rewrite (run_create_event_valid store now summary _ _ _ _ Hs He Hfut Hlt).
  simpl. rewrite Hins. reflexivity.
Qed.

Lemma create_event_backend_failure_witness :
  run (create_event_tool (lib:=Ref.lib) Outage.store Demo.morning "Sync"
         "2026-11-04T09:00:00Z" "2026-11-04T15:00:00+05:30")
  = (Ok (CreateError "503 Service Unavailable"),
     [ReqInsert {| body_summary := "Sync";
                   body_start := "2026-11-04T09:00:00+00:00";
                   body_end := "2026-11-04T09:30:00+00:00" |}]).
Proof.
  rewrite (create_event_backend_failure (lib:=Ref.lib) Outage.store
             Demo.morning "Sync" "2026-11-04T09:00:00Z" "2026-11-04T15:00:00+05:30"
             Demo.morning (Demo.morning + 30 * US_PER_MIN)
             (HttpError "503 Service Unavailable")).
  - vm_compute. reflexivity.
  - vm_compute. reflexivity.
  - vm_compute. reflexivity.
  - lia.
  - unfold US_PER_MIN, US_PER_SEC. lia.
  - reflexivity.
Defined.





(** ** find_available_slots_tool: where the slots lie *)

Lemma end_of_day_bounds now :
  now <= end_of_day now /\ end_of_day now - now < US_PER_DAY.
Proof.
  unfold end_of_day.
  assert (Hday : now mod US_PER_DAY
                 = now mod US_PER_SEC + US_PER_SEC * ((now / US_PER_SEC) mod 86400)).
  { change US_PER_DAY with (US_PER_SEC * 86400).
    apply Z.rem_mul_r; unfold US_PER_SEC; lia. }
  pose proof (Z.mod_pos_bound now US_PER_SEC ltac:(unfold US_PER_SEC; lia)) as Hus.
  pose proof (Z.mod_pos_bound (now / US_PER_SEC) 86400 ltac:(lia)) as Hsec.
  rewrite Hday. unfold US_PER_DAY, US_PER_SEC in *. lia.
Qed.

Lemma chained_weaken lo lo' ivs hi :
  lo <= lo' -> chained lo' ivs hi -> chained lo ivs hi.
Proof. destruct ivs as [|iv rest]; simpl; intros Hle H; [lia | split; [lia | tauto]]. Qed.

Lemma chained_app lo ivs mid ivs' hi :
  chained lo ivs mid -> chained mid ivs' hi -> chained lo (ivs ++ ivs') hi.
Proof.
  revert lo. induction ivs as [|iv rest IH]; simpl; intros lo H1 H2.
  - eapply chained_weaken; eassumption.
  - destruct H1 as [Hlo H1]. split; [exact Hlo | apply IH; assumption].
Qed.

Lemma chained_sorted lo ivs hi :
  Forall (fun iv : Z * Z => iv.1 <= iv.2) ivs ->
  chained lo ivs hi ->
  StronglySorted before ivs /\ Forall (fun iv : Z * Z => lo <= iv.1) ivs.
Proof.
  intros Hwf. revert lo. induction Hwf as [|iv rest Hiv _ IH]; simpl; intros lo H.
  - split; constructor.
  - destruct H as [Hlo H]. destruct (IH _ H) as [Hsorted Hafter].
    split.
    + apply SSorted_cons; [exact Hsorted | exact Hafter].
    + constructor; [exact Hlo |].
      eapply Forall_impl; [exact Hafter |]. simpl. intros iv' Hiv'. lia.
Qed.

Section SlotIntervals.
Context {lib : PyLib}.
Variable now : Z.

Lemma sweep_step_span min_duration event sp available_slots last_end st' :
  span_of event sp ->
  sweep_step min_duration event (available_slots, last_end) = Ok st' ->
  st' = (if sp.1 >? last_end + min_duration * US_PER_MIN
         then available_slots ++ [slot_of (last_end, sp.1)]
         else available_slots,
         Z.max last_end sp.2).
Proof.
  intros [Hs He] Hstep.
  apply sweep_step_Ok in Hstep as (start & end_ & Hs' & He' & _ & _ & ->).
  rewrite Hs in Hs'. rewrite He in He'.
  injection Hs' as <-. injection He' as <-. reflexivity.
Qed.

(** What the loop adds to its list, as intervals of instants. *)
Lemma sweep_intervals min_duration events spans :
  Forall2 span_of events spans ->
  forall available_slots last_end st',
    sweep min_duration events (available_slots, last_end) = Ok st' ->
    exists ivs,
      st'.1 = available_slots ++ map slot_of ivs
      /\ last_end <= st'.2
      /\ Forall (fun sp : Z * Z => sp.2 <= st'.2) spans
      /\ Forall (fun iv : Z * Z =>
                   last_end <= iv.1 /\ iv.1 + min_duration * US_PER_MIN < iv.2) ivs
      /\ (StronglySorted by_start spans ->
          Forall (fun iv => Forall (apart iv) spans) ivs)
      /\ (Forall (fun sp : Z * Z => sp.1 <= sp.2) spans ->
          chained last_end ivs st'.2).
Proof.
  induction 1 as [|event sp events spans Hsp _ IH]; intros acc last_end st' Hrun.
  - simpl in Hrun. injection Hrun as <-. exists []. simpl.
    rewrite app_nil_r. repeat split; try constructor; lia.
  - cbn [sweep] in Hrun. apply bind_Ok in Hrun as ([acc1 cur1] & Hstep & Hrun).
    apply (sweep_step_span _ _ _ _ _ _ Hsp) in Hstep. injection Hstep as -> ->.
    destruct (IH _ _ _ Hrun)
      as (ivs & Hacc & Hcur & Hends & Hivs & Hapart & Hchain).
    set (bound := last_end + min_duration * US_PER_MIN) in *.
    set (head := if sp.1 >? bound then [(last_end, sp.1)] else []).
    assert (Hhead : (if sp.1 >? bound
                     then acc ++ [slot_of (last_end, sp.1)] else acc)
                    = acc ++ map slot_of head).
    { unfold head. destruct (sp.1 >? bound); simpl;
        [reflexivity | rewrite app_nil_r; reflexivity]. }
    assert (Hhead_gap : Forall (fun iv : Z * Z =>
                                  iv = (last_end, sp.1) /\ bound < sp.1) head).
    { unfold head. destruct (Z.gtb_spec sp.1 bound); repeat constructor. lia. }
    exists (head ++ ivs).
    split; [rewrite Hacc, Hhead, map_app, app_assoc; reflexivity |].
    split; [lia |].
    split; [constructor; [lia | exact Hends] |].
    split; [|split].
    + apply Forall_app. split.
      * eapply Forall_impl; [exact Hhead_gap |]. intros iv [-> Hgap]. simpl.
        unfold bound in Hgap. lia.
      * eapply Forall_impl; [exact Hivs |]. simpl. intros iv Hiv. lia.
    + intros Hsorted. apply StronglySorted_inv in Hsorted as [Hsorted Hfirst].
      apply Forall_app. split.
      * eapply Forall_impl; [exact Hhead_gap |]. intros iv [-> _].
        constructor; [left; simpl; lia |].
        eapply Forall_impl; [exact Hfirst |]. intros sp' Hsp'.
        left. exact Hsp'.
      * specialize (Hapart Hsorted).
        apply Forall_forall. intros iv Hiv.
        rewrite Forall_forall in Hivs, Hapart.
        constructor; [right; specialize (Hivs iv Hiv); simpl in *; lia |].
        exact (Hapart iv Hiv).
    + intros Hwf. apply Forall_cons in Hwf as [Hsp_wf Hwf].
      specialize (Hchain Hwf).
      unfold head. destruct (sp.1 >? bound); simpl.
      * split; [lia |]. eapply chained_weaken; [|exact Hchain]. lia.
      * eapply chained_weaken; [|exact Hchain]. lia.
Qed.

(** The same for the whole tool, with the slot that runs to the end of
    the day. *)
Lemma find_slots_intervals store min_duration events_result spans slots :
  events_list store (slots_request now) = Ok events_result ->
  Forall2 span_of (default [] events_result) spans ->
  fst (run (find_available_slots_tool store now min_duration)) = Ok slots ->
  exists ivs,
    slots = map slot_of ivs
    /\ Forall (fun iv : Z * Z =>
                 now <= iv.1 /\ iv.1 + min_duration * US_PER_MIN < iv.2) ivs
    /\ (StronglySorted by_start spans ->
        Forall (fun iv => Forall (apart iv) spans) ivs)
    /\ (Forall (fun sp : Z * Z => sp.1 <= sp.2) spans ->
        exists hi, chained now ivs hi).
Proof.
  intros Hlist Hspans. rewrite run_find_available_slots_tool, Hlist. simpl.
  intros Hrun. apply bind_Ok in Hrun as ([acc cur] & Hsweep & Htrail).
  destruct (sweep_intervals _ _ _ Hspans _ _ _ Hsweep)
    as (ivs & Hacc & Hcur & Hends & Hivs & Hapart & Hchain).
  simpl in Hacc, Hcur, Hends, Hchain. subst acc.
  apply trailing_Ok in Htrail as (_ & _ & ->).
  destruct (Z.gtb_spec (end_of_day now) (cur + min_duration * US_PER_MIN))
    as [Hgt|_].
  - exists (ivs ++ [(cur, end_of_day now)]).
    split; [rewrite map_app; reflexivity |].
    split; [|split].
    + apply Forall_app. split; [exact Hivs |]. repeat constructor; simpl; lia.
    + intros Hsorted. apply Forall_app. split; [exact (Hapart Hsorted) |].
      constructor; [|constructor].
      eapply Forall_impl; [exact Hends |]. intros sp Hsp. right. exact Hsp.
    + intros Hwf. exists (end_of_day now).
      eapply chained_app; [exact (Hchain Hwf) |]. simpl. lia.
  - exists ivs. split; [reflexivity |]. split; [exact Hivs |].
    split; [exact Hapart |]. intros Hwf. exists cur. exact (Hchain Hwf).
Qed.

End SlotIntervals.

(** X5.  With a duration that is not negative and events that end no
    earlier than they start, the slots returned lie on the time line in
    ascending order and do not overlap: each is the rendering of an
    interval of instants that is not empty, does not start before [now],
    and ends before the next one starts. *)
Theorem slots_ascending_and_disjoint {lib : PyLib} (store : CalendarStore)
    (now : Z) (min_duration : Z) (events_result : option (list RawEvent))
    (spans : list (Z * Z)) (slots : list Slot) :
  0 <= min_duration ->
  events_list store (slots_request now) = Ok events_result ->
  Forall2 span_of (default [] events_result) spans ->
  Forall (fun sp : Z * Z => sp.1 <= sp.2) spans ->
  fst (run (find_available_slots_tool store now min_duration)) = Ok slots ->
  exists ivs,
    slots = map slot_of ivs
    /\ Forall (fun iv : Z * Z => now <= iv.1 /\ iv.1 < iv.2) ivs
    /\ StronglySorted before ivs.
Proof.
  intros Hm Hlist Hspans Hwf Hrun.
  destruct (find_slots_intervals now store min_duration _ _ _ Hlist Hspans Hrun)
    as (ivs & Hslots & Hivs & _ & Hchain).
  destruct (Hchain Hwf) as [hi Hhi].
  assert (Hmin : 0 <= min_duration * US_PER_MIN)
    by (unfold US_PER_MIN, US_PER_SEC; lia).
  exists ivs. split; [exact Hslots |]. split.
  - eapply Forall_impl; [exact Hivs |]. simpl. intros iv Hiv. lia.
  - eapply chained_sorted; [|exact Hhi].
    eapply Forall_impl; [exact Hivs |]. simpl. intros iv Hiv. lia.
Qed.

Lemma slots_ascending_and_disjoint_witness :
  exists ivs,
    [ {| slot_start := "2026-11-04T10:00:00+00:00";
         slot_end := "2026-11-04T11:00:00+00:00";
         duration_minutes := 60 |};
      {| slot_start := "2026-11-04T12:00:00+00:00";
         slot_end := "2026-11-04T23:59:59+00:00";
         duration_minutes := 719 |} ]
    = map (slot_of (lib:=Ref.lib)) ivs
    /\ Forall (fun iv : Z * Z => Demo.morning <= iv.1 /\ iv.1 < iv.2) ivs
    /\ StronglySorted before ivs.
Proof.
  apply (slots_ascending_and_disjoint (lib:=Ref.lib)
           (Demo.serving [Demo.standup; Demo.review]) Demo.morning 30
           (Some [Demo.standup; Demo.review])
           [(Demo.morning + 30 * US_PER_MIN, Demo.morning + 60 * US_PER_MIN);
            (Demo.morning + 120 * US_PER_MIN, Demo.morning + 180 * US_PER_MIN)]).
  - lia.
  - reflexivity.
  - repeat constructor; vm_compute; reflexivity.
  - repeat constructor; unfold US_PER_MIN, US_PER_SEC; simpl; lia.
  - vm_compute. reflexivity.
Defined.

(** X6.  When the events of the answer come ordered by start, as the
    request asks, no returned slot shares an instant with any of them:
    each slot ends before the event starts or starts after it has ended. *)
Theorem slots_avoid_every_event {lib : PyLib} (store : CalendarStore)
    (now : Z) (min_duration : Z) (events_result : option (list RawEvent))
    (spans : list (Z * Z)) (slots : list Slot) :
  events_list store (slots_request now) = Ok events_result ->
  Forall2 span_of (default [] events_result) spans ->
  StronglySorted by_start spans ->
  fst (run (find_available_slots_tool store now min_duration)) = Ok slots ->
  exists ivs,
    slots = map slot_of ivs
    /\ Forall (fun iv => Forall (apart iv) spans) ivs.
Proof.
  intros Hlist Hspans Hsorted Hrun.
  destruct (find_slots_intervals now store min_duration _ _ _ Hlist Hspans Hrun)
    as (ivs & Hslots & _ & Hapart & _).
  exists ivs. split; [exact Hslots | exact (Hapart Hsorted)].
Qed.

Lemma slots_avoid_every_event_witness :
  exists ivs,
    [ {| slot_start := "2026-11-04T10:00:00+00:00";
         slot_end := "2026-11-04T11:00:00+00:00";
         duration_minutes := 60 |};
      {| slot_start := "2026-11-04T12:00:00+00:00";
         slot_end := "2026-11-04T23:59:59+00:00";
         duration_minutes := 719 |} ]
    = map (slot_of (lib:=Ref.lib)) ivs
    /\ Forall (fun iv =>
         Forall (apart iv)
           [(Demo.morning + 30 * US_PER_MIN, Demo.morning + 60 * US_PER_MIN);
            (Demo.morning + 120 * US_PER_MIN, Demo.morning + 180 * US_PER_MIN)])
         ivs.
Proof.
  apply (slots_avoid_every_event (lib:=Ref.lib)
           (Demo.serving [Demo.standup; Demo.review]) Demo.morning 30
           (Some [Demo.standup; Demo.review])).
  - reflexivity.
  - repeat constructor; vm_compute; reflexivity.
  - repeat constructor; unfold by_start, US_PER_MIN, US_PER_SEC; simpl; lia.
  - vm_compute. reflexivity.
Defined.

(** ** find_available_slots_tool: the end of the day and the end of time *)

Lemma bound_overflows {A : Type} last_end min_duration (k : Z -> Res A) :
  DT_MAX < last_end + min_duration * US_PER_MIN ->
  exists msg,
    (td ← timedelta_minutes min_duration; bound ← dt_add last_end td; k bound)
    = Raise (OverflowError msg).
Proof.
  intros Hbig. unfold timedelta_minutes, timedelta_us.
  destruct (_ && _); simpl; [|eauto].
  unfold dt_add, in_dt_range.
  destruct (Z.leb_spec (last_end + min_duration * US_PER_MIN) DT_MAX) as [Hle|_];
    [lia |].
  rewrite andb_false_r. eauto.
Qed.

Lemma sweep_step_overflows {lib : PyLib} min_duration event available_slots
    last_end :
  timed_event event ->
  DT_MAX < last_end + min_duration * US_PER_MIN ->
  exists msg,
    sweep_step min_duration event (available_slots, last_end)
    = Raise (OverflowError msg).
Proof.
  intros [[start Hs] [end_ He]] Hbig. unfold sweep_step. rewrite Hs, He.
  exact (bound_overflows last_end min_duration _ Hbig).
Qed.

(** X7.  On an empty calendar the tool returns at most one slot, from
    [now] to 23:59:59 of the same UTC day, and it does so exactly when
    more than [min_duration] minutes are left before that instant; since
    less than a day is ever left, a request for 1440 minutes or more gets
    an empty list at any hour. *)
Theorem empty_calendar_slot {lib : PyLib} (store : CalendarStore) (now : Z)
    (min_duration : Z) (events_result : option (list RawEvent)) :
  DT_MIN <= now <= DT_MAX ->
  DT_MIN <= now + min_duration * US_PER_MIN <= DT_MAX ->
  events_list store (slots_request now) = Ok events_result ->
  default [] events_result = [] ->
  run (find_available_slots_tool store now min_duration)
  = (Ok (if end_of_day now >? now + min_duration * US_PER_MIN
         then [make_slot now (end_of_day now)] else []),
     [ReqList (slots_request now)])
  /\ now <= end_of_day now < now + US_PER_DAY
  /\ (1440 <= min_duration ->
      fst (run (find_available_slots_tool store now min_duration)) = Ok []).
Proof.
  intros Hnow Hbound Hlist Hnone.
  assert (Hrun : run (find_available_slots_tool store now min_duration)
                 = (Ok (if end_of_day now >? now + min_duration * US_PER_MIN
                        then [make_slot now (end_of_day now)] else []),
                    [ReqList (slots_request now)])).
  { rewrite run_find_available_slots_tool, Hlist. simpl. rewrite Hnone. simpl.
    f_equal. refine (proj2 (trailing_Ok now min_duration [] now _) _).
    split; [apply timedelta_minutes_small; unfold DT_MIN in *; lia |].
    split; [exact Hbound | reflexivity]. }
  pose proof (end_of_day_bounds now) as [Hge Hlt].
  split; [exact Hrun |]. split; [lia |].
  intros Hday. rewrite Hrun. simpl.
  destruct (Z.gtb_spec (end_of_day now) (now + min_duration * US_PER_MIN))
    as [Hgt|_]; [|reflexivity].
  unfold US_PER_DAY, US_PER_MIN, US_PER_SEC in *. lia.
Qed.

Lemma empty_calendar_slot_witness :
  run (find_available_slots_tool (lib:=Ref.lib) (Demo.serving []) Demo.morning 1440)
  = (Ok (if end_of_day Demo.morning >? Demo.morning + 1440 * US_PER_MIN
         then [make_slot (lib:=Ref.lib) Demo.morning (end_of_day Demo.morning)]
         else []),
     [ReqList (slots_request (lib:=Ref.lib) Demo.morning)])
  /\ Demo.morning <= end_of_day Demo.morning < Demo.morning + US_PER_DAY
  /\ fst (run (find_available_slots_tool (lib:=Ref.lib) (Demo.serving [])
                 Demo.morning 1440)) = Ok [].
Proof.
  destruct (empty_calendar_slot (lib:=Ref.lib) (Demo.serving []) Demo.morning
              1440 (Some []))
    as (Hrun & Hday & Hnone).
  - unfold Demo.morning, DT_MIN, DT_MAX, US_PER_DAY, US_PER_SEC. lia.
  - unfold Demo.morning, DT_MIN, DT_MAX, US_PER_DAY, US_PER_MIN, US_PER_SEC. lia.
  - reflexivity.
  - reflexivity.
  - split; [exact Hrun |]. split; [exact Hday |]. apply Hnone. lia.
Defined.

(** X8.  A duration so long that [now] plus it falls after
    [datetime.max] is not answered with an empty list: when the events of
    the answer are timed (or there is none) the tool raises an
    [OverflowError], from the first addition [last_end + timedelta(...)]
    it evaluates. *)
Theorem huge_duration_raises {lib : PyLib} (store : CalendarStore) (now : Z)
    (min_duration : Z) (events_result : option (list RawEvent)) :
  DT_MAX < now + min_duration * US_PER_MIN ->
  events_list store (slots_request now) = Ok events_result ->
  Forall timed_event (default [] events_result) ->
  exists msg,
    run (find_available_slots_tool store now min_duration)
    = (Raise (OverflowError msg), [ReqList (slots_request now)]).
Proof.
  intros Hbig Hlist Hevents.
  rewrite run_find_available_slots_tool, Hlist. simpl.
  destruct Hevents as [|event rest Hevent _].
  - destruct (bound_overflows now min_duration
                (fun bound => if end_of_day now >? bound
                              then mret ([] ++ [make_slot now (end_of_day now)])
                              else mret []) Hbig) as [msg Hraise].
    exists msg. f_equal. exact Hraise.
  - destruct (sweep_step_overflows min_duration event [] now Hevent Hbig)
      as [msg Hraise].
    exists msg. f_equal. cbn [sweep]. rewrite Hraise. reflexivity.
Qed.

Lemma huge_duration_raises_witness :
  exists msg,
    run (find_available_slots_tool (lib:=Ref.lib) (Demo.serving [Demo.standup])
           Demo.morning 5000000000)
    = (Raise (OverflowError msg),
       [ReqList (slots_request (lib:=Ref.lib) Demo.morning)]).
Proof.
  apply (huge_duration_raises (lib:=Ref.lib) (Demo.serving [Demo.standup])
           Demo.morning 5000000000 (Some [Demo.standup])).
  - unfold Demo.morning, DT_MAX, US_PER_DAY, US_PER_MIN, US_PER_SEC. lia.
  - reflexivity.
  - apply Forall_cons. split; [|apply Forall_nil_2].
    split; eexists; vm_compute; reflexivity.
Defined.

(** ** list_events_tool: order, completeness and missing fields *)

Lemma dedup_loop_sublist events : forall unique_events seen out,
  dedup_loop events unique_events seen = Ok out ->
  exists kept entries,
    kept `sublist_of` events
    /\ Forall2 (fun event entry => format_event event = Ok entry) kept entries
    /\ out = unique_events ++ entries.
Proof.
  induction events as [|event rest IH]; intros acc seen out Hrun.
  - simpl in Hrun. injection Hrun as <-. exists [], [].
    rewrite app_nil_r. repeat split; constructor.
  - simpl in Hrun. apply bind_Ok in Hrun as (ke & _ & Hrun).
    destruct (bool_decide (ke ∈ seen)).
    + destruct (IH _ _ _ Hrun) as (kept & entries & Hsub & Hfmt & ->).
      exists kept, entries. split; [apply sublist_cons, Hsub | auto].
    + apply bind_Ok in Hrun as (entry & Hentry & Hrun).
      destruct (IH _ _ _ Hrun) as (kept & entries & Hsub & Hfmt & ->).
      exists (event :: kept), (entry :: entries).
      split; [apply sublist_skip, Hsub |].
      split; [constructor; assumption |].
      rewrite <- app_assoc. reflexivity.
Qed.

Lemma dedup_loop_distinct events : forall ks unique_events seen out,
  Forall2 (fun event k => event_key event = Ok k) events ks ->
  NoDup ks ->
  (forall k, k ∈ ks -> k ∉ seen) ->
  dedup_loop events unique_events seen = Ok out ->
  exists entries,
    Forall2 (fun event entry => format_event event = Ok entry) events entries
    /\ out = unique_events ++ entries.
Proof.
  induction events as [|event rest IH]; intros ks acc seen out Hks Hnodup Hfresh Hrun.
  - simpl in Hrun. injection Hrun as <-. exists [].
    rewrite app_nil_r. split; constructor.
  - apply Forall2_cons_inv_l in Hks as (k & ks' & Hk & Hks & ->).
    apply NoDup_cons in Hnodup as [Hk_new Hnodup].
    simpl in Hrun. rewrite Hk in Hrun. simpl in Hrun.
    destruct (bool_decide_reflect (k ∈ seen)) as [Hin|_].
    { exfalso. apply (Hfresh k); [apply elem_of_cons; left; reflexivity | exact Hin]. }
    apply bind_Ok in Hrun as (entry & Hentry & Hrun).
    assert (Hfresh' : forall k', k' ∈ ks' -> k' ∉ seen ∪ {[k]}).
    { intros k' Hk'. rewrite elem_of_union, elem_of_singleton.
      intros [Hseen | ->]; [|contradiction].
      apply (Hfresh k'); [apply elem_of_cons; right; exact Hk' | exact Hseen]. }
    destruct (IH ks' _ _ _ Hks Hnodup Hfresh' Hrun) as (entries & Hfmt & ->).
    exists (entry :: entries). split; [constructor; assumption |].
    rewrite <- app_assoc. reflexivity.
Qed.

(** The only exceptions the loop can raise are the three missing keys. *)
Lemma dedup_loop_raises events : forall unique_events seen e,
  dedup_loop events unique_events seen = Raise e ->
  e = KeyError "start" \/ e = KeyError "summary" \/ e = KeyError "end".
Proof.
  induction events as [|event rest IH]; intros acc seen e Hrun.
  - discriminate.
  - simpl in Hrun. unfold event_key, format_event in Hrun.
    destruct (ev_start event) as [start|]; simpl in Hrun;
      [|injection Hrun as <-; auto].
    destruct (ev_summary event) as [summary|]; simpl in Hrun;
      [|injection Hrun as <-; auto].
    destruct (bool_decide _); [eapply IH; eassumption |].
    destruct (ev_end event) as [end_|]; simpl in Hrun;
      [eapply IH; eassumption | injection Hrun as <-; auto].
Qed.

Lemma dedup_loop_missing_field events : forall unique_events seen event,
  event ∈ events ->
  ev_start event = None \/ ev_summary event = None ->
  exists e, dedup_loop events unique_events seen = Raise e.
Proof.
  induction events as [|first rest IH]; intros acc seen event Hin Hmissing.
  - inversion Hin.
  - simpl. apply elem_of_cons in Hin as [<-|Hin].
    + unfold event_key.
      destruct Hmissing as [-> | Hsum]; [eexists; reflexivity |].
      destruct (ev_start event); simpl; [rewrite Hsum|]; eexists; reflexivity.
    + destruct (event_key first) as [k|e]; simpl; [|eauto].
      destruct (bool_decide _); [eapply IH; eassumption |].
      destruct (format_event first) as [entry|e]; simpl; [|eauto].
      eapply IH; eassumption.
Qed.

(** X9.  The entries of a returned list come in backend order and none is
    invented: they are, one for one, the entries of a sublist of the
    events the backend answered with. *)
Theorem list_events_keeps_backend_order {lib : PyLib} (store : CalendarStore)
    (now : Z) (query : option string) (out : list OutEvent) :
  fst (run (list_events_tool store now query)) = Ok (Events out) ->
  exists time_min time_max events_result kept,
    events_list store (list_request time_min time_max) = Ok events_result
    /\ kept `sublist_of` default [] events_result
    /\ Forall2 (fun event entry => format_event event = Ok entry) kept out.
Proof.
  intros Hout.
  apply list_events_tool_Events in Hout
    as (time_min & time_max & events_result & Hlist & Hloop & _).
  apply dedup_loop_sublist in Hloop as (kept & entries & Hsub & Hfmt & ->).
  exists time_min, time_max, events_result, kept. auto.
Qed.

Lemma list_events_keeps_backend_order_witness :
  exists time_min time_max events_result kept,
    events_list (Demo.serving [Demo.standup; Demo.review; Demo.standup])
      (list_request time_min time_max) = Ok events_result
    /\ kept `sublist_of` default [] events_result
    /\ Forall2 (fun event entry => format_event event = Ok entry) kept
         [ {| out_start := Some "2026-11-04T09:30:00+00:00"%string;
              out_summary := "Standup";
              out_end := Some "2026-11-04T10:00:00+00:00"%string |};
           {| out_start := Some "2026-11-04T11:00:00+00:00"%string;
              out_summary := "Review";
              out_end := Some "2026-11-04T12:00:00+00:00"%string |} ].
Proof.
  apply (list_events_keeps_backend_order (lib:=Ref.lib)
           (Demo.serving [Demo.standup; Demo.review; Demo.standup])
           Demo.morning None).
  vm_compute. reflexivity.
Defined.

(** X10.  Deduplication loses nothing else: when the events of the answer
    have pairwise different (start, summary) keys, a returned list holds
    one entry for every event, in the same order. *)
Theorem list_events_keeps_distinct_events {lib : PyLib} (store : CalendarStore)
    (now : Z) (query : option string) (out : list OutEvent) :
  fst (run (list_events_tool store now query)) = Ok (Events out) ->
  exists time_min time_max events_result,
    events_list store (list_request time_min time_max) = Ok events_result
    /\ forall ks,
         Forall2 (fun event k => event_key event = Ok k)
           (default [] events_result) ks ->
         NoDup ks ->
         Forall2 (fun event entry => format_event event = Ok entry)
           (default [] events_result) out.
Proof.
  intros Hout.
  apply list_events_tool_Events in Hout
    as (time_min & time_max & events_result & Hlist & Hloop & _).
  exists time_min, time_max, events_result. split; [exact Hlist |].
  intros ks Hks Hnodup.
  destruct (dedup_loop_distinct _ ks [] ∅ out Hks Hnodup) as (entries & Hfmt & ->).
  - intros k _. apply not_elem_of_empty.
  - exact Hloop.
  - exact Hfmt.
Qed.

Lemma list_events_keeps_distinct_events_witness :
  Forall2 (fun event entry => format_event event = Ok entry)
    [Demo.standup; Demo.review; Demo.holiday]
    [ {| out_start := Some "2026-11-04T09:30:00+00:00"%string;
         out_summary := "Standup";
         out_end := Some "2026-11-04T10:00:00+00:00"%string |};
      {| out_start := Some "2026-11-04T11:00:00+00:00"%string;
         out_summary := "Review";
         out_end := Some "2026-11-04T12:00:00+00:00"%string |};
      {| out_start := Some "2026-11-05"%string;
         out_summary := "Holiday";
         out_end := Some "2026-11-06"%string |} ].
Proof.
  destruct (list_events_keeps_distinct_events (lib:=Ref.lib)
              (Demo.serving [Demo.standup; Demo.review; Demo.holiday])
              Demo.morning None
              [ {| out_start := Some "2026-11-04T09:30:00+00:00"%string;
                   out_summary := "Standup";
                   out_end := Some "2026-11-04T10:00:00+00:00"%string |};
                {| out_start := Some "2026-11-04T11:00:00+00:00"%string;
                   out_summary := "Review";
                   out_end := Some "2026-11-04T12:00:00+00:00"%string |};
                {| out_start := Some "2026-11-05"%string;
                   out_summary := "Holiday";
                   out_end := Some "2026-11-06"%string |} ])
    as (time_min & time_max & events_result & Hlist & Hall).
  - vm_compute. reflexivity.
  - simpl in Hlist. injection Hlist as <-.
    apply (Hall [ (Some "2026-11-04T09:30:00+00:00"%string, "Standup"%string);
                  (Some "2026-11-04T11:00:00+00:00"%string, "Review"%string);
                  (Some "2026-11-05"%string, "Holiday"%string) ]).
    + repeat constructor.
    + repeat (apply NoDup_cons; split;
              [rewrite ?elem_of_cons, elem_of_nil; intuition discriminate |]).
      apply NoDup_nil_2.
Defined.

(** X11.  One event without a ['summary'] (or without a ['start']) hides
    the whole answer: instead of the other events the tool returns the
    text "Error fetching events: " followed by the quoted name of a
    missing key. *)
Theorem list_events_missing_field {lib : PyLib} (store : CalendarStore)
    (now : Z) (query : option string) (time_min time_max : string)
    (events_result : option (list RawEvent)) (event : RawEvent) :
  DT_MIN <= now + 7 * US_PER_DAY <= DT_MAX ->
  query_bounds query (isoformat now) (isoformat (now + 7 * US_PER_DAY))
  = Ok (time_min, time_max) ->
  events_list store (list_request time_min time_max) = Ok events_result ->
  event ∈ default [] events_result ->
  ev_start event = None \/ ev_summary event = None ->
  exists key,
    (key = "start" \/ key = "summary" \/ key = "end")%string
    /\ run (list_events_tool store now query)
       = (Ok (Text ("Error fetching events: '" +:+ key +:+ "'")),
          [ReqList (list_request time_min time_max)]).
Proof.
  intros Hclock Hbounds Hlist Hin Hmissing.
  rewrite (run_list_events_tool store now query Hclock), Hbounds.
  rewrite run_fetch_events, Hlist.
  destruct (dedup_loop_missing_field _ [] ∅ event Hin Hmissing) as [e He].
  rewrite He.
  destruct (dedup_loop_raises _ _ _ _ He) as [-> | [-> | ->]];
    eexists; (split; [|reflexivity]); auto.
Qed.

Lemma list_events_missing_field_witness :
  exists key,
    (key = "start" \/ key = "summary" \/ key = "end")%string
    /\ run (list_events_tool (lib:=Ref.lib)
              (Demo.serving [Demo.standup; Untitled.event; Demo.review])
              Demo.morning None)
       = (Ok (Text ("Error fetching events: '" +:+ key +:+ "'")),
          [ReqList (list_request "2026-11-04T09:00:00+00:00"
                                 "2026-11-11T09:00:00+00:00")]).
Proof.
  apply (list_events_missing_field (lib:=Ref.lib)
           (Demo.serving [Demo.standup; Untitled.event; Demo.review])
           Demo.morning None
           "2026-11-04T09:00:00+00:00" "2026-11-11T09:00:00+00:00"
           (Some [Demo.standup; Untitled.event; Demo.review]) Untitled.event).
  - unfold Demo.morning, DT_MIN, DT_MAX, US_PER_DAY, US_PER_SEC. lia.
  - vm_compute. reflexivity.
  - reflexivity.
  - simpl. rewrite !elem_of_cons. right. left. reflexivity.
  - right. reflexivity.
Defined.

(** * The conversation graph and the chat turn *)

Lemma Attempt_bind_Completed {A B : Type} (r : Attempt A) (f : A -> Attempt B) b :
  (r ≫= f) = Completed b <-> exists a, r = Completed a /\ f a = Completed b.
Proof.
  destruct r as [a|message]; simpl; split.
  - intros H. exists a. split; [reflexivity | exact H].
  - intros (a' & Ha & Hf). injection Ha as ->. exact Hf.
  - discriminate.
  - intros (a' & Ha & _). discriminate.
Qed.

Section AgentProperties.
Variable strftime : string -> Z -> string.
Variable llm : list Message -> Attempt (string * list ToolCall).
Variable tool_node : list Message -> Attempt (list Message).
Variable max_rounds : nat.
Variable limit_message : string.

Lemma tools_condition_after_reply state text calls :
  tools_condition (add_messages state [AIMessage text calls])
  = match calls with [] => false | _ :: _ => true end.
Proof.
  unfold tools_condition, add_messages. simpl. rewrite last_snoc. reflexivity.
Qed.

(** A run that completes only adds messages, keeps [today_info], and ends
    on an assistant message without tool calls. *)
Lemma process_input_shape rounds : forall state final,
  process_input llm tool_node limit_message rounds state = Completed final ->
  exists tail text,
    messages final = messages state ++ tail
    /\ last (messages final) = Some (AIMessage text [])
    /\ today_info final = today_info state.
Proof.
  induction rounds as [|rounds IH]; intros state final Hrun.
  - discriminate.
  - simpl in Hrun. unfold call_llm_model in Hrun.
    destruct (llm (messages state)) as [[text calls]|message]; [|discriminate].
    simpl in Hrun. rewrite tools_condition_after_reply in Hrun.
    destruct calls as [|call calls].
    + injection Hrun as <-. exists [AIMessage text []], text. simpl.
      rewrite last_snoc. auto.
    + apply Attempt_bind_Completed in Hrun as (results & _ & Hrun).
      destruct (IH _ _ Hrun) as (tail & text' & Hmsgs & Hlast & Hinfo).
      exists ([AIMessage text (call :: calls)] ++ results ++ tail), text'.
      split; [|split; [exact Hlast | exact Hinfo]].
      rewrite Hmsgs. simpl. rewrite <- !app_assoc. reflexivity.
Qed.


End AgentProperties.

(** X12.  A run of the graph that completes hands back the caller's
    messages unchanged, then the system message with the scheduling
    policy, then what the model and the tools added; its last message is
    an assistant message without tool calls, and [today_info] holds the
    dict of the tool [today]. *)
Theorem graph_result_shape (strftime : string -> Z -> string)
    (llm : list Message -> Attempt (string * list ToolCall))
    (tool_node : list Message -> Attempt (list Message))
    (max_rounds : nat) (limit_message : string) (now : Z)
    (input : list Message) (final : State) :
  graph_invoke strftime llm tool_node max_rounds limit_message now input
  = Completed final ->
  exists tail text,
    messages final = input ++ [SystemMessage POLICY] ++ tail
    /\ last (messages final) = Some (AIMessage text [])
    /\ today_info final = Some (today strftime now).
Proof.
  unfold graph_invoke. intros Hrun.
  apply process_input_shape in Hrun as (tail & text & Hmsgs & Hlast & Hinfo).
  exists tail, text. simpl in Hmsgs, Hinfo.
  rewrite <- app_assoc in Hmsgs. auto.
Qed.

Lemma graph_result_shape_witness :
  exists tail text,
    [ HumanMessage "What is on my calendar today?";
      SystemMessage POLICY;
      AIMessage "" [Scripted.list_call];
      mkMessage ToolResult "[{'start': '2026-11-04T09:30:00+00:00'}]" [];
      AIMessage "You have one event today." [] ]
    = [HumanMessage "What is on my calendar today?"]
        ++ [SystemMessage POLICY] ++ tail
    /\ last [ HumanMessage "What is on my calendar today?";
              SystemMessage POLICY;
              AIMessage "" [Scripted.list_call];
              mkMessage ToolResult "[{'start': '2026-11-04T09:30:00+00:00'}]" [];
              AIMessage "You have one event today." [] ]
       = Some (AIMessage text [])
    /\ Some {| info_role := "system";
               info_content :=
                 "Today's date is 2026-11-04, and it is a Wednesday (UTC)." |}
       = Some (today Scripted.strftime Demo.morning).
Proof.
  apply (graph_result_shape Scripted.strftime Scripted.llm Scripted.tool_node
           12 Scripted.LIMIT Demo.morning
           [HumanMessage "What is on my calendar today?"]
           {| messages :=
                [ HumanMessage "What is on my calendar today?";
                  SystemMessage POLICY;
                  AIMessage "" [Scripted.list_call];
                  mkMessage ToolResult
                    "[{'start': '2026-11-04T09:30:00+00:00'}]" [];
                  AIMessage "You have one event today." [] ];
              today_info :=
                Some {| info_role := "system";
                        info_content :=
                          "Today's date is 2026-11-04, and it is a Wednesday (UTC)." |} |}).
  vm_compute. reflexivity.
Defined.


(** X14.  One round of tools: when the first reply of the model asks for
    tools, the tool node answers, and the second reply asks for none, the
    run completes after exactly these two calls of the model, with the
    messages in the order policy, request, results, answer. *)
Theorem graph_one_tool_round (strftime : string -> Z -> string)
    (llm : list Message -> Attempt (string * list ToolCall))
    (tool_node : list Message -> Attempt (list Message))
    (max_rounds : nat) (limit_message : string) (now : Z)
    (input : list Message) (text1 text2 : string) (call : ToolCall)
    (calls : list ToolCall) (results : list Message) :
  (2 <= max_rounds)%nat ->
  let asked := input ++ [SystemMessage POLICY] in
  let requested := asked ++ [AIMessage text1 (call :: calls)] in
  llm asked = Completed (text1, call :: calls) ->
  tool_node requested = Completed results ->
  llm (requested ++ results) = Completed (text2, []) ->
  graph_invoke strftime llm tool_node max_rounds limit_message now input
  = Completed {| messages := requested ++ results ++ [AIMessage text2 []];
                 today_info := Some (today strftime now) |}.
Proof.
  intros Hrounds asked requested Hfirst Htools Hsecond.
  destruct max_rounds as [|[|rounds]]; [lia | lia |].
  unfold graph_invoke. cbn [process_input]. unfold call_llm_model.
  cbn [messages inject_additional_system_message provide_today_info].
  fold asked. rewrite Hfirst. cbn [mbind Attempt_bind mret Attempt_ret fst snd].
  rewrite tools_condition_after_reply.
  cbn [messages add_messages inject_additional_system_message
         provide_today_info today_info].
  fold asked. fold requested. rewrite Htools.
  cbn [mbind Attempt_bind messages]. rewrite Hsecond.
  cbn [mbind Attempt_bind mret Attempt_ret fst snd].
  rewrite tools_condition_after_reply.
  unfold add_messages. cbn [messages today_info].
  rewrite <- app_assoc. reflexivity.
Qed.

Lemma graph_one_tool_round_witness :
  graph_invoke Scripted.strftime Scripted.llm Scripted.tool_node 12
    Scripted.LIMIT Demo.morning [HumanMessage "What is on my calendar today?"]
  = Completed
      {| messages :=
           ([HumanMessage "What is on my calendar today?"]
              ++ [SystemMessage POLICY]
              ++ [AIMessage "" (Scripted.list_call :: [])])
             ++ [mkMessage ToolResult "[{'start': '2026-11-04T09:30:00+00:00'}]" []]
             ++ [AIMessage "You have one event today." []];
         today_info := Some (today Scripted.strftime Demo.morning) |}.
Proof.
  apply (graph_one_tool_round Scripted.strftime Scripted.llm Scripted.tool_node
           12 Scripted.LIMIT Demo.morning
           [HumanMessage "What is on my calendar today?"]
           "" "You have one event today." Scripted.list_call []
           [mkMessage ToolResult "[{'start': '2026-11-04T09:30:00+00:00'}]" []]).
  - lia.
  - reflexivity.
  - reflexivity.
  - reflexivity.
Defined.

Section TurnProperties.
Variable strftime : string -> Z -> string.
Variable llm : list Message -> Attempt (string * list ToolCall).
Variable tool_node : list Message -> Attempt (list Message).
Variable max_rounds : nat.
Variable limit_message : string.
Variable now : Z.

Abbreviation handle :=
  (handle_input strftime llm tool_node max_rounds limit_message now).

(** What is read off a completed run: the text of the last message, and
    no tool call. *)
Lemma read_result_of_run input final :
  graph_invoke strftime llm tool_node max_rounds limit_message now input
  = Completed final ->
  exists text, read_result final = Completed (text, []).
Proof.
  intros Hrun.
  apply graph_result_shape in Hrun as (tail & text & _ & Hlast & _).
  exists text. unfold read_result. rewrite Hlast. reflexivity.
Qed.

Lemma handle_input_step user_input session :
  user_input <> ""%string ->
  exists answer,
    conversation_history (handle user_input session)
    = conversation_history session
        ++ [ {| entry_role := "user"; entry_content := user_input |};
             {| entry_role := "assistant"; entry_content := answer |} ]
    /\ (tool_outputs session = [] -> tool_outputs (handle user_input session) = []).
Proof.
  intros Hinput. unfold handle_input.
  destruct (String.eqb_spec user_input "") as [->|_]; [contradiction |].
  destruct (graph_invoke _ _ _ _ _ _ _) as [final|message] eqn:Hrun.
  - destruct (read_result_of_run _ _ Hrun) as [text Hread].
    cbn [mbind Attempt_bind]. rewrite Hread.
    exists text. simpl. rewrite <- app_assoc. auto.
  - eexists. simpl. rewrite <- app_assoc. auto.
Qed.

Lemma handle_input_empty session : handle "" session = session.
Proof. reflexivity. Qed.

Lemma exchanges_snoc pairs question answer :
  exchanges (pairs ++ [(question, answer)])
  = exchanges pairs
      ++ [ {| entry_role := "user"; entry_content := question |};
           {| entry_role := "assistant"; entry_content := answer |} ].
Proof.
  unfold exchanges. rewrite map_app, concat_app. simpl. reflexivity.
Qed.

Lemma fold_handle_inputs inputs : forall session pairs,
  conversation_history session = exchanges pairs ->
  tool_outputs session = [] ->
  exists answers,
    length answers = length (filter (fun q : string => q <> ""%string) inputs)
    /\ conversation_history
         (fold_left (fun s user_input => handle user_input s) inputs session)
       = exchanges (pairs ++ zip (filter (fun q : string => q <> ""%string) inputs)
                                 answers)
    /\ tool_outputs
         (fold_left (fun s user_input => handle user_input s) inputs session) = [].
Proof.
  induction inputs as [|user_input rest IH]; intros session pairs Hhist Htools.
  - exists []. simpl. rewrite app_nil_r. auto.
  - simpl. destruct (decide (user_input = ""%string)) as [->|Hne].
    + rewrite handle_input_empty, filter_cons_False by (intros H; apply H; reflexivity).
      apply IH; assumption.
    + rewrite filter_cons_True by exact Hne.
      destruct (handle_input_step user_input session Hne) as (answer & Hstep & Hempty).
      destruct (IH (handle user_input session) (pairs ++ [(user_input, answer)]))
        as (answers & Hlen & Hfold & Hout).
      * rewrite Hstep, Hhist, exchanges_snoc. reflexivity.
      * apply Hempty, Htools.
      * exists (answer :: answers). simpl. rewrite Hlen.
        split; [reflexivity |]. split; [|exact Hout].
        rewrite Hfold, <- app_assoc. reflexivity.
Qed.

End TurnProperties.

(** X15.  Whatever the model and the tools do, the conversation history is
    always a sequence of exchanges: after any series of inputs it holds,
    for every input that was not empty and in the same order, the user's
    entry followed by exactly one assistant entry - the answer, or the
    text of the error. *)
Theorem history_is_questions_and_answers (strftime : string -> Z -> string)
    (llm : list Message -> Attempt (string * list ToolCall))
    (tool_node : list Message -> Attempt (list Message))
    (max_rounds : nat) (limit_message : string) (now : Z)
    (inputs : list string) :
  exists answers,
    length answers = length (filter (fun q : string => q <> ""%string) inputs)
    /\ conversation_history
         (after_inputs strftime llm tool_node max_rounds limit_message now inputs)
       = exchanges (zip (filter (fun q : string => q <> ""%string) inputs) answers).
Proof.
  destruct (fold_handle_inputs strftime llm tool_node max_rounds limit_message
              now inputs initial_session [] eq_refl eq_refl)
    as (answers & Hlen & Hhist & _).
  exists answers. split; [exact Hlen | exact Hhist].
Qed.

(** X16.  The list of tool outputs kept in the session is always empty:
    it is read off the last message of a completed run, and a run only
    completes on a message without tool calls; a failed run leaves it as
    it was. *)
Theorem tool_outputs_stay_empty (strftime : string -> Z -> string)
    (llm : list Message -> Attempt (string * list ToolCall))
    (tool_node : list Message -> Attempt (list Message))
    (max_rounds : nat) (limit_message : string) (now : Z)
    (inputs : list string) :
  tool_outputs
    (after_inputs strftime llm tool_node max_rounds limit_message now inputs)
  = [].
Proof.
  destruct (fold_handle_inputs strftime llm tool_node max_rounds limit_message
              now inputs initial_session [] eq_refl eq_refl)
    as (answers & _ & _ & Hout).
  exact Hout.
Qed.

Lemma process_input_never_settles (llm : list Message -> Attempt (string * list ToolCall))
    (tool_node : list Message -> Attempt (list Message)) (limit_message : string)
    (rounds : nat) :
  (forall history, exists text call calls,
     llm history = Completed (text, call :: calls)) ->
  (forall history, exists results, tool_node history = Completed results) ->
  forall state,
    process_input llm tool_node limit_message rounds state = Failed limit_message.
Proof.
  intros Hllm Htools. induction rounds as [|rounds IH]; intros state.
  - reflexivity.
  - cbn [process_input]. unfold call_llm_model.
    destruct (Hllm (messages state)) as (text & call & calls & ->).
    cbn [mbind Attempt_bind mret Attempt_ret fst snd].
    rewrite tools_condition_after_reply.
    destruct (Htools (messages (add_messages state [AIMessage text (call :: calls)])))
      as [results ->].
    cbn [mbind Attempt_bind]. apply IH.
Qed.

(** X17.  A model that asks for tools in every reply is stopped by the
    engine's limit, and the chat turn survives it: the history gets the
    user's entry and the assistant entry "Error processing request: "
    followed by the text of the engine's exception, and the tool outputs
    of the session are left as they were. *)
Theorem turn_reports_the_limit (strftime : string -> Z -> string)
    (llm : list Message -> Attempt (string * list ToolCall))
    (tool_node : list Message -> Attempt (list Message))
    (max_rounds : nat) (limit_message : string) (now : Z)
    (user_input : string) (session : SessionState) :
  (forall history, exists text call calls,
     llm history = Completed (text, call :: calls)) ->
  (forall history, exists results, tool_node history = Completed results) ->
  user_input <> ""%string ->
  handle_input strftime llm tool_node max_rounds limit_message now
    user_input session
  = {| conversation_history :=
         conversation_history session
           ++ [ {| entry_role := "user"; entry_content := user_input |};
                {| entry_role := "assistant";
                   entry_content := "Error processing request: " +:+ limit_message |} ];
       tool_outputs := tool_outputs session |}.
Proof.
  intros Hllm Htools Hinput. unfold handle_input, graph_invoke.
  destruct (String.eqb_spec user_input "") as [->|_]; [contradiction |].
  rewrite (process_input_never_settles llm tool_node limit_message max_rounds
             Hllm Htools).
  cbn [mbind Attempt_bind]. rewrite <- app_assoc. reflexivity.
Qed.

Lemma turn_reports_the_limit_witness :
  handle_input Scripted.strftime Scripted.restless_llm Scripted.tool_node 12
    Scripted.LIMIT Demo.morning "What is on my calendar today?" initial_session
  = {| conversation_history :=
         [ {| entry_role := "user";
              entry_content := "What is on my calendar today?" |};
           {| entry_role := "assistant";
              entry_content := "Error processing request: Recursion limit reached" |} ];
       tool_outputs := [] |}.
Proof.
  apply (turn_reports_the_limit Scripted.strftime Scripted.restless_llm
           Scripted.tool_node 12 Scripted.LIMIT Demo.morning
           "What is on my calendar today?" initial_session).
  - intros history. exists ""%string, Scripted.list_call, []. reflexivity.
  - intros history. eexists. reflexivity.
  - discriminate.
Defined.

(** X18.  The model is never shown its earlier replies as its own: in a
    history of exchanges every question goes to the graph as a human
    message and every answer as a system message, followed by the new
    input as a human message; no assistant message, tool result or tool
    call of an earlier turn is replayed. *)
Theorem earlier_replies_become_system_messages
    (pairs : list (string * string)) (user_input : string) :
  turn_messages
    (exchanges pairs ++ [ {| entry_role := "user"; entry_content := user_input |} ])
    user_input
  = concat (map (fun qa : string * string =>
                   [HumanMessage qa.1; SystemMessage qa.2]) pairs)
      ++ [HumanMessage user_input].
Proof.
  unfold turn_messages. rewrite removelast_last. f_equal.
  induction pairs as [|[question answer] rest IH]; [reflexivity |].
  unfold exchanges in *. simpl. rewrite IH. reflexivity.
Qed.

(** * The drawing of a listing *)

Section DisplayProperties.
Context {str : PyStr}.

(** When [split] gives two pieces or more for every line that contains
    the separator, as Python's does, the loop raises nothing and draws
    one card for every two lines. *)
Lemma draw_cards_pairs :
  (forall line, contains "**" line = true ->
                exists before part rest, split "**" line = before :: part :: rest) ->
  forall events,
    (exists cards, draw_cards events = (cards, Ok tt)
                   /\ length cards = Nat.div2 (length events))
    /\ (forall line, exists cards,
          draw_cards (line :: events) = (cards, Ok tt)
          /\ length cards = Nat.div2 (S (length events))).
Proof.
  intros Hsplit.
  assert (Hstars : forall line, exists part, between_stars line = Ok part).
  { intros line. unfold between_stars.
    destruct (contains "**" line) eqn:Hc; [|eauto].
    destruct (Hsplit line Hc) as (before & part & rest & ->). eauto. }
  induction events as [|line' events [IH0 IH1]].
  - split; [exists []; auto |]. intros line. exists []. auto.
  - split; [apply IH1 |]. intros line.
    destruct IH0 as (cards & Hdraw & Hlen).
    destruct (Hstars (strip line)) as [time_part Ht].
    destruct (Hstars (strip line')) as [summary Hs].
    exists (Markdown (card time_part summary) :: cards).
    cbn [draw_cards]. rewrite Ht, Hs, Hdraw. simpl. rewrite Hlen. auto.
Qed.

End DisplayProperties.

Lemma RefStr_split_from_nonempty sep skip piece s :
  RefStr.split_from sep skip piece s <> [].
Proof.
  revert skip piece. induction s as [|c s IH]; intros skip piece; simpl.
  - discriminate.
  - destruct skip; [|apply IH].
    destruct (RefStr.starts_with sep (String c s)); [discriminate | apply IH].
Qed.

Lemma RefStr_split_two_pieces sep line :
  sep <> ""%string ->
  RefStr.contains sep line = true ->
  exists before part rest, RefStr.split sep line = before :: part :: rest.
Proof.
  intros Hsep. unfold RefStr.split. generalize (@nil ascii) as piece.
  induction line as [|c line IH]; intros piece Hc.
  - destruct sep; [contradiction | discriminate].
  - cbn [RefStr.split_from].
    destruct (RefStr.starts_with sep (String c line)) eqn:Hstart.
    + destruct (RefStr.split_from sep (String.length sep - 1) [] line)
        as [|part rest] eqn:Hrest.
      * exfalso. exact (RefStr_split_from_nonempty _ _ _ _ Hrest).
      * eauto.
    + apply IH. cbn [RefStr.contains] in Hc. rewrite Hstart in Hc. exact Hc.
Qed.

(** X19.  The events of a reply that has no third part are not drawn.
    The last part of a reply is always taken for a closing note and a
    note is shown only when there are more than two parts, so for a reply
    made of the header alone, or of the header and one block of events,
    the page gets the header and nothing else. *)
Theorem display_loses_a_single_block {str : PyStr} (response_text : string)
    (header : string) (rest : list string) :
  contains MARKER response_text = true ->
  split NLNL response_text = header :: rest ->
  (length rest <= 1)%nat ->
  join NLNL [] = ""%string ->
  split NL "" = [""%string] ->
  strip "" = ""%string ->
  display_events response_text = ([Markdown ("### " +:+ header)], Ok tt).
Proof.
  intros Hmarker Hparts Hshort Hjoin Hsplit Hstrip.
  unfold display_events. rewrite Hmarker, Hparts. simpl negb. cbv iota.
  assert (Hmiddle : removelast rest = []).
  { destruct rest as [|block [|more rest]]; simpl in *; [reflexivity.. | lia]. }
  rewrite Hmiddle, Hjoin. unfold event_lines. rewrite Hsplit.
  rewrite filter_cons, filter_nil.
  destruct (decide (strip "" <> ""%string)) as [Hne|_]; [contradiction |].
  simpl draw_cards. cbv iota beta.
  destruct (decide (2 < length (header :: rest))%nat) as [Hlong|_];
    [simpl in Hlong; lia | reflexivity].
Qed.

Lemma display_loses_a_single_block_witness :
  display_events (str:=RefStr.str) Replies.listing
  = ([Markdown "### Here are your scheduled events:"], Ok tt).
Proof.
  apply (display_loses_a_single_block (str:=RefStr.str) Replies.listing
           "Here are your scheduled events:"
           [ "**09:30 - 10:00**" +:+ NL +:+ "**Standup**" ]).
  - vm_compute. reflexivity.
  - vm_compute. reflexivity.
  - simpl. lia.
  - reflexivity.
  - reflexivity.
  - reflexivity.
Defined.

(** X20.  In a reply with the marker, the lines of the middle parts that
    are not blank are drawn two by two: the page gets the header, one
    card for every full pair of lines (a line left over is dropped), and
    the last part as a note when the reply has more than two parts; no
    exception is raised, the index [[1]] being read only from a line
    that contains the two stars. *)
Theorem display_draws_one_card_per_pair {str : PyStr} (response_text : string)
    (header : string) (rest : list string) :
  (forall line, contains "**" line = true ->
                exists before part more, split "**" line = before :: part :: more) ->
  contains MARKER response_text = true ->
  split NLNL response_text = header :: rest ->
  exists cards,
    display_events response_text
    = (Markdown ("### " +:+ header) :: cards
         ++ match rest with
            | _ :: _ :: _ => [Info (List.last rest header)]
            | _ => []
            end,
       Ok tt)
    /\ length cards
       = Nat.div2 (length (event_lines (join NLNL (removelast rest)))).
Proof.
  intros Hstars Hmarker Hparts.
  unfold display_events. rewrite Hmarker, Hparts. simpl negb. cbv iota.
  destruct (proj1 (draw_cards_pairs Hstars
                     (event_lines (join NLNL (removelast rest)))))
    as (cards & Hdraw & Hlen).
  exists cards. rewrite Hdraw. split; [|exact Hlen].
  f_equal. f_equal. f_equal.
  destruct rest as [|block [|more rest]]; [reflexivity.. |].
  destruct (decide (2 < length (header :: block :: more :: rest))%nat) as [_|Hshort];
    [|simpl in Hshort; lia].
  assert (Hlast : forall (l : list string) d x,
             last (x :: l) = Some (List.last (x :: l) d)).
  { intros l d. induction l as [|y l IH]; intros x; [reflexivity |].
    change (last (x :: y :: l)) with (last (y :: l)).
    change (List.last (x :: y :: l) d) with (List.last (y :: l) d). apply IH. }
  change (last (header :: block :: more :: rest))
    with (last (block :: more :: rest)).
  rewrite (Hlast _ header). reflexivity.
Qed.

Lemma display_draws_one_card_per_pair_witness :
  exists cards,
    display_events (str:=RefStr.str) Replies.listing_with_note
    = (Markdown ("### " +:+ "Here are your scheduled events:") :: cards
         ++ [Info "Note: all times are UTC."],
       Ok tt)
    /\ length cards = 2%nat.
Proof.
  destruct (display_draws_one_card_per_pair (str:=RefStr.str)
              Replies.listing_with_note "Here are your scheduled events:"
              [ "**09:30 - 10:00**" +:+ NL +:+ "**Standup**" +:+ NL +:+ "11:00"
                  +:+ NL +:+ "Review" +:+ NL +:+ "dangling";
                "Note: all times are UTC." ])
    as (cards & Hdraw & Hlen).
  - intros line. apply RefStr_split_two_pieces. discriminate.
  - vm_compute. reflexivity.
  - vm_compute. reflexivity.
  - exists cards. split; [exact Hdraw |]. rewrite Hlen. vm_compute. reflexivity.
Defined.
